(** * Import reconciliation: CSV parsing, canonicalisation, deduplication
      and transfer detection

    A shallow embedding of [src/lib/csvDetector.ts], [src/lib/csvParser.ts]
    and the dedupe step of [src/app/import/revolut/preview.tsx], followed by
    the properties of these functions.

    Conventions of the embedding.
    - A JavaScript string is a [string]: a sequence of code units, here
      restricted to the code units 0..255 (one [ascii] per code unit).
    - A JavaScript [number] is a [number] below: NaN, the two infinities, or
      an exact rational.  Decimal text is read exactly; the rounding of
      IEEE doubles is not modelled.
    - The [date] field of a canonical transaction holds an ISO-8601 instant
      (the canonicaliser always stores [date.toISOString()]); it is modelled
      by its time value, the number of milliseconds since the epoch, which
      is what [new Date(tx.date).getTime()] returns.
    - [Set<number>] is a [gset nat], [Map<string, number>] a
      [gmap string nat]; a [Map] that is iterated keeps its insertion order
      and is modelled by an association list. *)

From Stdlib Require Import ZArith QArith Qabs Qcanon Qround Ascii String List Lia.
From stdpp Require Import base decidable countable numbers option list sorting gmap sets strings.

Local Open Scope string_scope.
Local Open Scope Z_scope.

(** ** JavaScript built-ins used by the sources *)

Module Js.

(** *** Characters *)

Definition code (c : ascii) : nat := nat_of_ascii c.

(** [\s] of regular expressions and the characters removed by
    [String.prototype.trim]: TAB, LF, VT, FF, CR, SPACE and NBSP are the
    ones below code unit 256. *)
Definition isWhiteSpace (c : ascii) : bool :=
  let n := code c in
  ((9 <=? n)%nat && (n <=? 13)%nat) || (n =? 32)%nat || (n =? 160)%nat.

(** [\d] *)
Definition isDigit (c : ascii) : bool :=
  let n := code c in (48 <=? n)%nat && (n <=? 57)%nat.

Definition digitValue (c : ascii) : Z := Z.of_nat (code c) - 48.

(** [toLowerCase] on one code unit: A-Z and the Latin-1 capitals. *)
Definition lowerChar (c : ascii) : ascii :=
  let n := code c in
  if ((65 <=? n)%nat && (n <=? 90)%nat)
     || ((192 <=? n)%nat && (n <=? 222)%nat && negb (n =? 215)%nat)
  then ascii_of_nat (n + 32) else c.

(** *** Strings *)

Fixpoint toLowerCase (s : string) : string :=
  match s with
  | EmptyString => EmptyString
  | String c s' => String (lowerChar c) (toLowerCase s')
  end.

Fixpoint trimStart (s : string) : string :=
  match s with
  | EmptyString => EmptyString
  | String c s' => if isWhiteSpace c then trimStart s' else s
  end.

Fixpoint trimEnd (s : string) : string :=
  match s with
  | EmptyString => EmptyString
  | String c s' =>
      match trimEnd s' with
      | EmptyString => if isWhiteSpace c then EmptyString else String c EmptyString
      | r => String c r
      end
  end.

Definition trim (s : string) : string := trimEnd (trimStart s).

(** [!s] for a string: only the empty string is falsy. *)
Definition isEmpty (s : string) : bool :=
  match s with EmptyString => true | _ => false end.

(** [a || b] on strings. *)
Definition orElse (a b : string) : string := if isEmpty a then b else a.

Fixpoint startsWith (s p : string) : bool :=
  match p, s with
  | EmptyString, _ => true
  | String a p', String b s' => Ascii.eqb a b && startsWith s' p'
  | String _ _, EmptyString => false
  end.

(** [s.includes(needle)] *)
Fixpoint includes (s needle : string) : bool :=
  startsWith s needle ||
  match s with
  | EmptyString => false
  | String _ s' => includes s' needle
  end.

(** [s.split(sep)] for a one-character separator: never empty, the
    empty string splits into one empty piece. *)
Fixpoint split (sep : ascii) (s : string) : list string :=
  match s with
  | EmptyString => [EmptyString]
  | String c s' =>
      if Ascii.eqb c sep then EmptyString :: split sep s'
      else match split sep s' with
           | [] => [String c EmptyString]
           | piece :: pieces => String c piece :: pieces
           end
  end.

(** [s.replace(/,/g, '')] and the like: delete every occurrence of one
    character. *)
Fixpoint removeChar (x : ascii) (s : string) : string :=
  match s with
  | EmptyString => EmptyString
  | String c s' => if Ascii.eqb c x then removeChar x s' else String c (removeChar x s')
  end.

(** [s.replace(/\r$/, '')]: drop one carriage return at the very end. *)
Fixpoint stripTrailingCR (s : string) : string :=
  match s with
  | EmptyString => EmptyString
  | String c EmptyString => if Ascii.eqb c "013" then EmptyString else s
  | String c s' => String c (stripTrailingCR s')
  end.

Fixpoint allDigits (s : string) : bool :=
  match s with
  | EmptyString => true
  | String c s' => isDigit c && allDigits s'
  end.

(** *** Numbers *)

Inductive number :=
| NaN
| Infinity (negative : bool)
| Finite (q : Qc).

Global Instance number_eq_dec : EqDecision number.
Proof. solve_decision. Defined.

Definition zero : number := Finite (Q2Qc 0).

Definition ofZ (z : Z) : number := Finite (Q2Qc (inject_Z z)).

(** [Number.isNaN] *)
Definition isNaN (x : number) : bool :=
  match x with NaN => true | _ => false end.

(** [x === y]: NaN is different from everything, itself included. *)
Definition strictEq (x y : number) : bool :=
  match x, y with
  | NaN, _ | _, NaN => false
  | _, _ => bool_decide (x = y)
  end.

(** [x < 0] *)
Definition isNegative (x : number) : bool :=
  match x with
  | NaN => false
  | Infinity negative => negative
  | Finite q => match Qcompare q 0 with Lt => true | _ => false end
  end.

(** [Math.abs] *)
Definition abs (x : number) : number :=
  match x with
  | NaN => NaN
  | Infinity _ => Infinity false
  | Finite q => Finite (Q2Qc (Qabs q))
  end.

(** unary minus *)
Definition neg (x : number) : number :=
  match x with
  | NaN => NaN
  | Infinity negative => Infinity (negb negative)
  | Finite q => Finite (Qcopp q)
  end.

(** [x * 100] *)
Definition times100 (x : number) : number :=
  match x with
  | NaN => NaN
  | Infinity negative => Infinity negative
  | Finite q => Finite (Qcmult q (Q2Qc (inject_Z 100)))
  end.

(** [Math.round]: the nearest integer, halves upwards. *)
Definition round (x : number) : number :=
  match x with
  | Finite q => ofZ (Qfloor (Qplus q (1 # 2)))
  | _ => x
  end.

(** The longest run of decimal digits at the start, and what follows. *)
Fixpoint takeDigits (s : string) : string * string :=
  match s with
  | EmptyString => (EmptyString, EmptyString)
  | String c s' =>
      if isDigit c
      then let '(ds, rest) := takeDigits s' in (String c ds, rest)
      else (EmptyString, s)
  end.

Fixpoint digitsValueFrom (acc : Z) (s : string) : Z :=
  match s with
  | EmptyString => acc
  | String c s' => digitsValueFrom (10 * acc + digitValue c) s'
  end.

Definition digitsValue (s : string) : Z := digitsValueFrom 0 s.

(** The value of an exponent part ([e], a sign, at least one digit) at
    the start of [s]; 0 when there is none. *)
Definition exponentPart (s : string) : Z :=
  match s with
  | String c s' =>
      if Ascii.eqb c "e" || Ascii.eqb c "E" then
        let '(negative, s'') :=
          match s' with
          | String "-" t => (true, t)
          | String "+" t => (false, t)
          | _ => (false, s')
          end in
        let '(ds, _) := takeDigits s'' in
        if isEmpty ds then 0
        else if negative then - digitsValue ds else digitsValue ds
      else 0
  | EmptyString => 0
  end.

(** [m] times ten to the power [e]. *)
Definition scale10 (m e : Z) : Qc :=
  if 0 <=? e then Q2Qc (inject_Z (m * 10 ^ e))
  else Q2Qc (m # Z.to_pos (10 ^ (- e))).

(** The longest prefix that is an unsigned decimal literal: digits, an
    optional fraction, an optional exponent; a lone dot is no literal. *)
Definition unsignedDecimal (s : string) : option Qc :=
  let '(intDigits, afterInt) := takeDigits s in
  let '(fracDigits, afterFrac) :=
    match afterInt with
    | String "." t => takeDigits t
    | _ => (EmptyString, afterInt)
    end in
  if isEmpty intDigits && isEmpty fracDigits then None
  else Some (scale10 (digitsValue (intDigits ++ fracDigits))
                     (exponentPart afterFrac - Z.of_nat (String.length fracDigits))).

(** [parseFloat]: skip leading white space, read a sign, then
    [Infinity] or the longest decimal literal; NaN when there is none. *)
Definition parseFloat (s : string) : number :=
  let t := trimStart s in
  let '(negative, body) :=
    match t with
    | String "-" r => (true, r)
    | String "+" r => (false, r)
    | _ => (false, t)
    end in
  if startsWith body "Infinity" then Infinity negative
  else match unsignedDecimal body with
       | None => NaN
       | Some q => Finite (if negative then Qcopp q else q)
       end.

End Js.

(** ** [src/lib/csvDetector.ts] *)

Module csvDetector.
Import Js.

Inductive CSVProvider := aib | revolut | unknown.

(** [/^\d{1,2}\/\d{1,2}\/\d{2,4}$/.test(col)]: three runs of digits
    separated by two slashes, of 1-2, 1-2 and 2-4 digits. *)
Definition datePattern (col : string) : bool :=
  match split "/" col with
  | [d; m; y] =>
      allDigits d && (1 <=? String.length d)%nat && (String.length d <=? 2)%nat
      && allDigits m && (1 <=? String.length m)%nat && (String.length m <=? 2)%nat
      && allDigits y && (2 <=? String.length y)%nat && (String.length y <=? 4)%nat
  | _ => false
  end.

(** The dialect-B (AIB) header test. *)
Definition aibHeader (headerLower : string) : bool :=
  includes headerLower "posted transactions"
  || includes headerLower "posted account"
  || (includes headerLower "debit" && includes headerLower "credit"
      && includes headerLower "balance").

(** The dialect-A (Revolut) header test. *)
Definition revolutHeader (headerLower : string) : bool :=
  (includes headerLower "type" && includes headerLower "product"
   && includes headerLower "state")
  || (includes headerLower "started date" && includes headerLower "completed date")
  || (includes headerLower "amount" && includes headerLower "fee"
      && includes headerLower "currency" && includes headerLower "state").

Definition detectCSVProvider (csvContent : string) : CSVProvider :=
  if isEmpty csvContent || (String.length (trim csvContent) =? 0)%nat then unknown
  else
    let lines := split "010" (trim csvContent) in
    if (List.length lines =? 0)%nat then unknown
    else
      match List.find (fun line => (0 <? String.length (trim line))%nat) lines with
      | None => unknown
      | Some headerLine =>
          let headerLower := toLowerCase headerLine in
          if aibHeader headerLower then aib
          else if revolutHeader headerLower then revolut
          else if (1 <? List.length lines)%nat then
            match lines !! 1%nat with
            | None => unknown
            | Some firstDataLine =>
                let columns := List.map trim (split "," firstDataLine) in
                if (10 <=? List.length columns)%nat then revolut
                else if (4 <=? List.length columns)%nat && (List.length columns <=? 7)%nat
                then if existsb datePattern columns then aib else unknown
                else unknown
            end
          else unknown
      end.

End csvDetector.

(** ** [src/lib/csvParser.ts] *)

Module csvParser.
Import Js.

Record RevolutTransaction := {
  rev_type : string;
  rev_product : string;
  rev_startedDate : string;
  rev_completedDate : string;
  rev_description : string;
  rev_payer : string;
  rev_payee : string;
  rev_amount : number;
  rev_fee : number;
  rev_currency : string;
  rev_state : string;
  rev_balance : string;
}.

Inductive Kind := income | expense.

Global Instance Kind_eq_dec : EqDecision Kind.
Proof. solve_decision. Defined.

Record ParsedTransaction := {
  title : string;
  subtitle : string;
  amount : number;
  kind : Kind;
  date : Z;
  categoryId : string;
  currency : string;
  excludeFromAnalytics : option bool;
  isAnalyticsProtected : option bool;
  displayName : option string;
}.

Record SkippedRow := { line : nat; reason : string }.

(** [RevolutParseResult] and [AibParseResult] have the same shape. *)
Record ParseResult (T : Type) := {
  transactions : list T;
  skipped : nat;
  totalRows : nat;
  skippedDetails : list SkippedRow;
}.
Arguments transactions {T} _.
Arguments skipped {T} _.
Arguments totalRows {T} _.
Arguments skippedDetails {T} _.

Record AibTransaction := {
  aib_date : string;
  aib_description : string;
  aib_amount : number;
  aib_currency : string;
  aib_balance : string;
  aib_product : string;
}.

Definition RevolutParseResult := ParseResult RevolutTransaction.
Definition AibParseResult := ParseResult AibTransaction.

(** A call either throws an [Error] with a message or returns. *)
Inductive outcome (A : Type) :=
| Throw (message : string)
| Return (value : A).
Arguments Throw {A} _.
Arguments Return {A} _.

(** The state of a row loop: the three variables it updates. *)
Record RowLoop (T : Type) := {
  loop_transactions : list T;
  loop_skipped : nat;
  loop_skippedDetails : list SkippedRow;
}.
Arguments loop_transactions {T} _.
Arguments loop_skipped {T} _.
Arguments loop_skippedDetails {T} _.

(** What one iteration of a row loop does: push a record, or count a
    skip with its reason.  No operation inside the [try] blocks of the
    two parsers can throw (every field access is guarded by [?.] or a
    truthiness test), so their [catch] clauses are never entered. *)
Inductive RowOutcome (T : Type) :=
| Parsed (record : T)
| Skip (why : string).
Arguments Parsed {T} _.
Arguments Skip {T} _.

Definition rowStep {T} (i : nat) (o : RowOutcome T) (st : RowLoop T) : RowLoop T :=
  match o with
  | Parsed record =>
      {| loop_transactions := loop_transactions st ++ [record];
         loop_skipped := loop_skipped st;
         loop_skippedDetails := loop_skippedDetails st |}
  | Skip why =>
      {| loop_transactions := loop_transactions st;
         loop_skipped := S (loop_skipped st);
         loop_skippedDetails :=
           loop_skippedDetails st ++ [{| line := i + 1; reason := why |}] |}
  end.

(** [for (let i = start; i < lines.length; i++)] over the lines from
    index [i] on. *)
Fixpoint rowLoop {T} (row : string -> RowOutcome T) (rows : list string) (i : nat)
         (st : RowLoop T) : RowLoop T :=
  match rows with
  | [] => st
  | l :: rest => rowLoop row rest (S i) (rowStep i (row l) st)
  end.

Definition emptyLoop {T} : RowLoop T :=
  {| loop_transactions := []; loop_skipped := 0; loop_skippedDetails := [] |}.

Definition dquote : ascii := "034".

(** [parseCSVLine]: the loop over the characters, with [current],
    [insideQuotes] and [result] as arguments. *)
Fixpoint parseCSVLineFrom (line current : string) (insideQuotes : bool)
         (result : list string) : list string :=
  match line with
  | EmptyString => result ++ [current]
  | String char rest =>
      if Ascii.eqb char dquote then
        match rest with
        | String nextChar rest' =>
            if insideQuotes && Ascii.eqb nextChar dquote
            then parseCSVLineFrom rest' (current ++ String dquote "") insideQuotes result
            else parseCSVLineFrom rest current (negb insideQuotes) result
        | EmptyString => parseCSVLineFrom rest current (negb insideQuotes) result
        end
      else if Ascii.eqb char "," && negb insideQuotes
      then parseCSVLineFrom rest "" insideQuotes (result ++ [current])
      else parseCSVLineFrom rest (current ++ String char "") insideQuotes result
  end.

Definition parseCSVLine (line : string) : list string :=
  parseCSVLineFrom line "" false [].

(** [fields[idx]]: [undefined] out of range. *)
Definition fieldAt (fields : list string) (idx : Z) : option string :=
  if 0 <=? idx then fields !! Z.to_nat idx else None.

(** [fields[idx]?.trim() || dflt] *)
Definition trimmedOr (fields : list string) (idx : Z) (dflt : string) : string :=
  match fieldAt fields idx with
  | Some f => orElse (trim f) dflt
  | None => dflt
  end.

(** [const lines = csvContent.split('\n').map(l => l.replace(/\r$/, ''))] *)
Definition linesOf (csvContent : string) : list string :=
  List.map stripTrailingCR (split "010" csvContent).

Module Revolut.

(** [columnMap]: later headers overwrite earlier ones of the same name. *)
Definition columnMap (headerFields : list string) : gmap string nat :=
  fold_left (fun m '(index, header) => <[toLowerCase (trim header) := index]> m)
            (imap pair headerFields) ∅.

Fixpoint getColumnIndex (m : gmap string nat) (names : list string) : Z :=
  match names with
  | [] => -1
  | name :: rest =>
      match m !! toLowerCase name with
      | Some idx => Z.of_nat idx
      | None => getColumnIndex m rest
      end
  end.

Record Columns := {
  typeIdx : Z; productIdx : Z; startedDateIdx : Z; completedDateIdx : Z;
  descriptionIdx : Z; amountIdx : Z; feeIdx : Z; currencyIdx : Z;
  stateIdx : Z; balanceIdx : Z;
}.

Definition columns (headerLine : string) : Columns :=
  let m := columnMap (parseCSVLine headerLine) in
  {| typeIdx := getColumnIndex m ["type"];
     productIdx := getColumnIndex m ["product"];
     startedDateIdx := getColumnIndex m ["started date"; "started"; "date"];
     completedDateIdx := getColumnIndex m ["completed date"; "completed"];
     descriptionIdx := getColumnIndex m ["description"; "desc"];
     amountIdx := getColumnIndex m ["amount"];
     feeIdx := getColumnIndex m ["fee"];
     currencyIdx := getColumnIndex m ["currency"];
     stateIdx := getColumnIndex m ["state"; "status"];
     balanceIdx := getColumnIndex m ["balance"] |}.

(** [idx >= 0 ? fields[idx]?.trim() || dflt : dflt] *)
Definition column (fields : list string) (idx : Z) (dflt : string) : string :=
  if 0 <=? idx then trimmedOr fields idx dflt else dflt.

(** [idx >= 0 ? parseFloat(fields[idx]?.trim() || '0') : 0] *)
Definition numericColumn (fields : list string) (idx : Z) : number :=
  if 0 <=? idx then parseFloat (trimmedOr fields idx "0") else zero.

(** The body of the row loop (lines 101-150). *)
Definition row (c : Columns) (rawLine : string) : RowOutcome RevolutTransaction :=
  let line := trim rawLine in
  if isEmpty line then Skip "Empty line"
  else
    let fields := parseCSVLine line in
    if (List.length fields <? 3)%nat then Skip "Not enough columns"
    else
      let amount := numericColumn fields (amountIdx c) in
      if isNaN amount then Skip "Invalid amount"
      else Parsed {|
        rev_type := column fields (typeIdx c) "";
        rev_product := column fields (productIdx c) "";
        rev_startedDate := column fields (startedDateIdx c) "";
        rev_completedDate := column fields (completedDateIdx c) "";
        rev_description := column fields (descriptionIdx c) "";
        rev_payer := "";
        rev_payee := "";
        rev_amount := amount;
        rev_fee := numericColumn fields (feeIdx c);
        rev_currency := column fields (currencyIdx c) "GBP";
        rev_state := column fields (stateIdx c) "";
        rev_balance := column fields (balanceIdx c) "" |}.

End Revolut.

Definition parseRevolutCSV (csvContent : string) : outcome RevolutParseResult :=
  let lines := linesOf csvContent in
  if (List.length lines <? 2)%nat then Throw "CSV file is empty or invalid"
  else
    let c := Revolut.columns (hd "" lines) in
    if Revolut.amountIdx c =? -1 then Throw "CSV must contain 'Amount' column"
    else
      let st := rowLoop (Revolut.row c) (drop 1 lines) 1 emptyLoop in
      Return {| transactions := loop_transactions st;
                skipped := loop_skipped st;
                totalRows := Nat.max 0 (List.length lines - 1);
                skippedDetails := loop_skippedDetails st |}.

(** *** Transfer detection *)

Definition msPerDay : Z := 1000 * 60 * 60 * 24.

(** [new Date(tx.date).toISOString().split('T')[0]]: the UTC calendar
    day of the instant.  The text YYYY-MM-DD names the day; the day is
    modelled by its number, counted from the epoch. *)
Definition dateKey (tx : ParsedTransaction) : Z := date tx / msPerDay.

(** The key [`${dateKey}_${tx.amount}_${tx.currency}`] of
    [potentialMatches].  Neither a day nor a printed number contains an
    underscore, so two such texts are equal exactly when their three
    parts are; the key is modelled by the triple. *)
Definition GroupKey : Type := Z * number * string.

Definition groupKey (tx : ParsedTransaction) : GroupKey :=
  (dateKey tx, amount tx, currency tx).

(** [potentialMatches]: a [Map] from key to the indices pushed under it,
    in insertion order. *)
Fixpoint pushIndex (key : GroupKey) (index : nat) (m : list (GroupKey * list nat))
  : list (GroupKey * list nat) :=
  match m with
  | [] => [(key, [index])]
  | (k, indices) :: m' =>
      if decide (k = key) then (k, (indices ++ [index])%list) :: m'
      else (k, indices) :: pushIndex key index m'
  end.

Definition potentialMatches (transactions : list ParsedTransaction)
  : list (GroupKey * list nat) :=
  fold_left (fun m '(index, tx) => pushIndex (groupKey tx) index m)
            (imap pair transactions) [].

Record PairsResult := {
  indices : gset nat;
  pairs : list (nat * nat);
}.

(** The test of lines 263-269 on two transactions. *)
Definition isTransferPair (tx1 tx2 : ParsedTransaction) : bool :=
  bool_decide (kind tx1 <> kind tx2)
  && bool_decide (Z.abs (date tx1 - date tx2) <= 1 * msPerDay).

(** The body of the inner loop for one [i] and one [j], with
    [a = indices[i]] and [b = indices[j]].  The indices of a group are
    positions of [transactions], so both look-ups succeed. *)
Definition visitPair (transactions : list ParsedTransaction) (a b : nat)
           (st : PairsResult) : PairsResult :=
  match transactions !! a, transactions !! b with
  | Some tx1, Some tx2 =>
      if isTransferPair tx1 tx2
      then {| indices := {[b]} ∪ ({[a]} ∪ indices st);
              pairs := pairs st ++ [(a, b)] ++ [(a, b)] |}
      else st
  | _, _ => st
  end.

(** [for (let j = i + 1; ...)] with [indices[i] = a]. *)
Fixpoint innerLoop (transactions : list ParsedTransaction) (a : nat)
         (later : list nat) (st : PairsResult) : PairsResult :=
  match later with
  | [] => st
  | b :: later' => innerLoop transactions a later' (visitPair transactions a b st)
  end.

(** [for (let i = 0; ...)] over the indices of one group. *)
Fixpoint outerLoop (transactions : list ParsedTransaction) (group : list nat)
         (st : PairsResult) : PairsResult :=
  match group with
  | [] => st
  | a :: later => outerLoop transactions later (innerLoop transactions a later st)
  end.

Definition visitGroup (transactions : list ParsedTransaction) (group : list nat)
           (st : PairsResult) : PairsResult :=
  if (List.length group <? 2)%nat then st else outerLoop transactions group st.

Definition detectTransferPairs (transactions : list ParsedTransaction) : PairsResult :=
  fold_left (fun st '(_, group) => visitGroup transactions group st)
            (potentialMatches transactions)
            {| indices := ∅; pairs := [] |}.

Record MatchResult := {
  newIndices : gset nat;
  existingIndices : gset nat;
  matchedPairs : list (nat * nat);
}.

(** The variables of the two greedy routines: the result sets, the set
    of consumed existing indices, and the pairs. *)
Record MatchState := {
  newTransferIndices : gset nat;
  existingTransferIndices : gset nat;
  matchedExistingIndices : gset nat;
  statePairs : list (nat * nat);
}.

Definition emptyMatch : MatchState :=
  {| newTransferIndices := ∅; existingTransferIndices := ∅;
     matchedExistingIndices := ∅; statePairs := [] |}.

Definition recordMatch (newIndex existingIndex : nat) (st : MatchState) : MatchState :=
  {| newTransferIndices := {[newIndex]} ∪ newTransferIndices st;
     existingTransferIndices := {[existingIndex]} ∪ existingTransferIndices st;
     matchedExistingIndices := {[existingIndex]} ∪ matchedExistingIndices st;
     statePairs := statePairs st ++ [(newIndex, existingIndex)] |}.

Definition resultOf (st : MatchState) : MatchResult :=
  {| newIndices := newTransferIndices st;
     existingIndices := existingTransferIndices st;
     matchedPairs := statePairs st |}.

Definition marker : string := "*MOBI".

(** The four criteria of lines 347-352. *)
Definition aibCriteria (newTx existingTx : ParsedTransaction) : bool :=
  bool_decide (dateKey newTx = dateKey existingTx)
  && strictEq (abs (amount newTx)) (abs (amount existingTx))
  && String.eqb (currency newTx) (currency existingTx)
  && bool_decide (kind newTx <> kind existingTx).

(** The [for] loop over the existing transactions from [existingIndex]
    on, for one new transaction: stops at the first match. *)
Fixpoint aibScan (newTx : ParsedTransaction) (newIndex : nat)
         (existing : list ParsedTransaction) (existingIndex : nat)
         (st : MatchState) : MatchState :=
  match existing with
  | [] => st
  | existingTx :: rest =>
      if decide (existingIndex ∈ matchedExistingIndices st)
      then aibScan newTx newIndex rest (S existingIndex) st
      else if negb (includes (title existingTx) marker)
      then aibScan newTx newIndex rest (S existingIndex) st
      else if aibCriteria newTx existingTx
      then recordMatch newIndex existingIndex st
      else aibScan newTx newIndex rest (S existingIndex) st
  end.

Definition aibVisit (existingTransactions : list ParsedTransaction)
           (st : MatchState) (entry : nat * ParsedTransaction) : MatchState :=
  let '(newIndex, newTx) := entry in
  if negb (includes (title newTx) marker) then st
  else aibScan newTx newIndex existingTransactions 0 st.

Definition detectAibTransfers (newTransactions existingTransactions : list ParsedTransaction)
  : MatchResult :=
  resultOf (fold_left (aibVisit existingTransactions) (imap pair newTransactions) emptyMatch).

Inductive Source := aib_import | revolut_import.

(** The tests of lines 412-422, in their order: each failing one
    [continue]s. *)
Definition crossBankCriteria (newTx existingTx : ParsedTransaction) : bool :=
  if bool_decide (Z.abs (date newTx - date existingTx) > 4 * msPerDay) then false
  else if negb (strictEq (abs (amount newTx)) (abs (amount existingTx))) then false
  else if negb (String.eqb (currency newTx) (currency existingTx)) then false
  else if bool_decide (kind newTx = kind existingTx) then false
  else true.

Fixpoint crossBankScan (newTx : ParsedTransaction) (newIndex : nat)
         (existing : list ParsedTransaction) (existingIndex : nat)
         (st : MatchState) : MatchState :=
  match existing with
  | [] => st
  | existingTx :: rest =>
      if decide (existingIndex ∈ matchedExistingIndices st)
      then crossBankScan newTx newIndex rest (S existingIndex) st
      else if crossBankCriteria newTx existingTx
      then recordMatch newIndex existingIndex st
      else crossBankScan newTx newIndex rest (S existingIndex) st
  end.

Definition crossBankVisit (existingTransactions : list ParsedTransaction)
           (st : MatchState) (entry : nat * ParsedTransaction) : MatchState :=
  let '(newIndex, newTx) := entry in
  crossBankScan newTx newIndex existingTransactions 0 st.

Definition detectCrossBankTransfers
           (newTransactions existingTransactions : list ParsedTransaction)
           (newSource existingSource : Source) : MatchResult :=
  resultOf (fold_left (crossBankVisit existingTransactions)
                      (imap pair newTransactions) emptyMatch).

(** *** The AIB parser *)

Module Aib.

(** [array.findIndex(p)]: -1 when no element satisfies [p]. *)
Fixpoint findIndexFrom {A} (p : A -> bool) (l : list A) (i : nat) : Z :=
  match l with
  | [] => -1
  | x :: rest => if p x then Z.of_nat i else findIndexFrom p rest (S i)
  end.

Definition findIndex {A} (p : A -> bool) (l : list A) : Z := findIndexFrom p l 0.

(** [normalizedHeaders].  The byte-order mark U+FEFF that line 471
    removes from the header is not a code unit below 256, so the
    removal is the identity on the strings of this embedding. *)
Definition normalizedHeaders (headerLine : string) : list string :=
  List.map (fun h => toLowerCase (trim h)) (parseCSVLine headerLine).

Fixpoint getColumnIndex (headers : list string) (aliases : list string) : Z :=
  match aliases with
  | [] => -1
  | alias :: rest =>
      let exactIdx := findIndex (fun h => String.eqb h (toLowerCase alias)) headers in
      if negb (exactIdx =? -1) then exactIdx
      else
        let containsIdx := findIndex (fun h => includes h (toLowerCase alias)) headers in
        if negb (containsIdx =? -1) then containsIdx
        else getColumnIndex headers rest
  end.

Record Columns := {
  dateIdx : Z; descIdx : Z; amountIdx : Z; debitIdx : Z; creditIdx : Z;
  currencyIdx : Z; balanceIdx : Z; productIdx : Z;
}.

Definition columns (headerLine : string) : Columns :=
  let h := normalizedHeaders headerLine in
  {| dateIdx := getColumnIndex h
       ["date"; "transaction date"; "value date"; "posting date"; "posted date";
        "posted transactions date"];
     descIdx := getColumnIndex h
       ["description"; "details"; "narrative"; "info"; "reference"];
     amountIdx := getColumnIndex h ["amount"; "transaction amount"];
     debitIdx := getColumnIndex h ["debit"; "withdrawal"; "debit amount"; "debit eur"];
     creditIdx := getColumnIndex h ["credit"; "lodgement"; "credit amount"; "credit eur"];
     currencyIdx := getColumnIndex h ["currency"; "ccy"];
     balanceIdx := getColumnIndex h ["balance"; "running balance"; "balance eur"];
     productIdx := getColumnIndex h
       ["account"; "account name"; "account type"; "account product"] |}.

(** [idx >= 0 && fields[idx]]: the field when it exists and is not
    the empty string. *)
Definition truthyField (fields : list string) (idx : Z) : option string :=
  match fieldAt fields idx with
  | Some f => if isEmpty f then None else Some f
  | None => None
  end.

(** [idx >= 0 && fields[idx] && fields[idx].trim()]: the trimmed
    field when it is not blank. *)
Definition filledField (fields : list string) (idx : Z) : option string :=
  match truthyField fields idx with
  | Some f => if isEmpty (trim f) then None else Some (trim f)
  | None => None
  end.

(** [parseFloat(text.replace(/,/g, ''))] *)
Definition parseAmountText (text : string) : number :=
  parseFloat (removeChar "," text).

(** Lines 527-534: the amount after the debit column was tried. *)
Definition afterDebit (c : Columns) (fields : list string) : number :=
  match filledField fields (debitIdx c) with
  | Some text =>
      let debit := parseAmountText text in
      if negb (isNaN debit) && negb (strictEq debit zero) then neg (abs debit) else zero
  | None => zero
  end.

(** Lines 535-541: the amount after the credit column was tried. *)
Definition afterCredit (c : Columns) (fields : list string) : number :=
  let amount := afterDebit c fields in
  if strictEq amount zero then
    match filledField fields (creditIdx c) with
    | Some text =>
        let credit := parseAmountText text in
        if negb (isNaN credit) && negb (strictEq credit zero) then abs credit else amount
    | None => amount
    end
  else amount.

(** Lines 542-545: the fall-back on the amount column. *)
Definition rowAmount (c : Columns) (fields : list string) : number :=
  let amount := afterCredit c fields in
  if strictEq amount zero then
    match truthyField fields (amountIdx c) with
    | Some f => parseAmountText (trim f)
    | None => amount
    end
  else amount.

(** [idx >= 0 ? fields[idx]?.trim() || inside : outside] *)
Definition column (fields : list string) (idx : Z) (inside outside : string) : string :=
  if 0 <=? idx then trimmedOr fields idx inside else outside.

(** The body of the row loop (lines 509-569). *)
Definition row (c : Columns) (rawLine : string) : RowOutcome AibTransaction :=
  let line := trim rawLine in
  if isEmpty line then Skip "Empty line"
  else
    let fields := parseCSVLine line in
    if (List.length fields <? 2)%nat then Skip "Not enough columns"
    else
      let amount := rowAmount c fields in
      if isNaN amount then Skip "Invalid amount"
      else Parsed {|
        aib_date := column fields (dateIdx c) "" "";
        aib_description := column fields (descIdx c) "" "";
        aib_amount := amount;
        aib_currency := column fields (currencyIdx c) "EUR" "EUR";
        aib_balance := column fields (balanceIdx c) "" "";
        aib_product := column fields (productIdx c) "" "AIB" |}.

End Aib.

Definition parseAibCSV (csvContent : string) : outcome AibParseResult :=
  let lines := linesOf csvContent in
  if (List.length lines <? 2)%nat then Throw "CSV file is empty or invalid"
  else
    let c := Aib.columns (hd "" lines) in
    if (Aib.dateIdx c =? -1)
       || ((Aib.amountIdx c =? -1) && (Aib.debitIdx c =? -1) && (Aib.creditIdx c =? -1))
    then Throw "CSV must contain date and amount (or debit/credit) columns"
    else
      let st := rowLoop (Aib.row c) (drop 1 lines) 1 emptyLoop in
      Return {| transactions := loop_transactions st;
                skipped := loop_skipped st;
                totalRows := Nat.max 0 (List.length lines - 1);
                skippedDetails := loop_skippedDetails st |}.

(** *** Canonicalisation of an AIB record *)

(** [s.replace(/^P\s*/i, '')] for a literal prefix [P]: when [s] starts
    with [P], letters compared without case, remove it and the white
    space that follows. *)
Fixpoint afterPrefixCI (p s : string) : option string :=
  match p, s with
  | EmptyString, _ => Some s
  | String a p', String b s' =>
      if Ascii.eqb (lowerChar a) (lowerChar b) then afterPrefixCI p' s' else None
  | String _ _, EmptyString => None
  end.

Definition stripPrefix (p s : string) : string :=
  match afterPrefixCI p s with
  | Some rest => trimStart rest
  | None => s
  end.

(** [s.replace(/\*{2}\d{4}\s*/g, '')]: scanning from the left, every
    two asterisks followed by four digits are deleted together with the
    white space after them ([skipping] is true while that white space is
    being consumed); the scan resumes after the deleted text. *)
Fixpoint removeMaskedCards (skipping : bool) (s : string) : string :=
  match s with
  | EmptyString => EmptyString
  | String c s' =>
      if skipping && isWhiteSpace c then removeMaskedCards true s'
      else
        match s' with
        | String c2 (String d1 (String d2 (String d3 (String d4 rest)))) =>
            if Ascii.eqb c "*" && Ascii.eqb c2 "*"
               && isDigit d1 && isDigit d2 && isDigit d3 && isDigit d4
            then removeMaskedCards true rest
            else String c (removeMaskedCards false s')
        | _ => String c (removeMaskedCards false s')
        end
  end.

(** [s.replace(/\*+$/, '')]: delete the run of asterisks at the end. *)
Fixpoint removeTrailingAsterisks (s : string) : string :=
  match s with
  | EmptyString => EmptyString
  | String c s' =>
      match removeTrailingAsterisks s' with
      | EmptyString => if Ascii.eqb c "*" then EmptyString else String c EmptyString
      | r => String c r
      end
  end.

(** The four prefix replacements of lines 609-612, once each and in
    this order. *)
Definition stripNoisePrefixes (s : string) : string :=
  stripPrefix "VDC-" (stripPrefix "VDP-" (stripPrefix "D/D" (stripPrefix "TST-" s))).

(** [cleanDisplayName] of lines 608-615. *)
Definition cleanDisplayName (title : string) : string :=
  trim (removeTrailingAsterisks (removeMaskedCards false (stripNoisePrefixes title))).

Section convert.
(** The categoriser and the date logic of lines 580-601 (which reads
    the local time zone and, as a last resort, the clock) are
    collaborators of the canonicaliser. *)
Variable categorizeTransaction : string -> string -> bool -> string.
Variable resolveDate : string -> Z.

Definition convertAibToAppTransaction (aib : AibTransaction) : ParsedTransaction :=
  let isExpense := isNegative (aib_amount aib) in
  let amountInCents := round (times100 (abs (aib_amount aib))) in
  let title := orElse (aib_description aib) (if isExpense then "Expense" else "Income") in
  let subtitle := orElse (aib_product aib) "AIB" in
  {| title := title;
     subtitle := subtitle;
     amount := amountInCents;
     kind := if isExpense then expense else income;
     date := resolveDate (aib_date aib);
     categoryId := categorizeTransaction title subtitle isExpense;
     currency := orElse (aib_currency aib) "EUR";
     excludeFromAnalytics := None;
     isAnalyticsProtected := None;
     displayName := Some (orElse (cleanDisplayName title) title) |}.
End convert.

(** *** Marking transfers *)

(** [{ ...tx, categoryId, excludeFromAnalytics: true,
    isAnalyticsProtected: true }] *)
Definition asTransfer (transferCategoryId : string) (tx : ParsedTransaction)
  : ParsedTransaction :=
  {| title := title tx;
     subtitle := subtitle tx;
     amount := amount tx;
     kind := kind tx;
     date := date tx;
     categoryId := transferCategoryId;
     currency := currency tx;
     excludeFromAnalytics := Some true;
     isAnalyticsProtected := Some true;
     displayName := displayName tx |}.

(** [markTransfers]; [transferCategoryId] is what the awaited
    [getTransferCategoryId()] resolves to. *)
Definition markTransfers (transferCategoryId : string)
           (transactions : list ParsedTransaction) : list ParsedTransaction :=
  let transferIndices := indices (detectTransferPairs transactions) in
  if (size transferIndices =? 0)%nat then transactions
  else imap (fun index tx =>
               if decide (index ∈ transferIndices)
               then asTransfer transferCategoryId tx
               else tx)
            transactions.

(** *** Canonicalisation of a Revolut record *)

(** [s.replace(' ', 'T')]: the first space only. *)
Fixpoint replaceFirstSpace (s : string) : string :=
  match s with
  | EmptyString => EmptyString
  | String c rest =>
      if Ascii.eqb c " " then String "T" rest else String c (replaceFirstSpace rest)
  end.

Section convertRevolut.
(** The categoriser, the reading of a date text by [new Date(text)]
    ([None] for an invalid date) and the clock are collaborators of the
    canonicaliser. *)
Variable categorizeTransaction : string -> string -> bool -> string.
Variable parseDate : string -> option Z.
Variable now : Z.

(** Lines 163-172: the started date, else the completed date, else the
    clock; [None] is an invalid date. *)
Definition revolutDate (revolut : RevolutTransaction) : option Z :=
  let primaryStr := orElse (rev_startedDate revolut) "" in
  let fallbackStr := orElse (rev_completedDate revolut) "" in
  let normalizedPrimary :=
    if isEmpty primaryStr then "" else replaceFirstSpace primaryStr in
  let normalizedFallback :=
    if isEmpty fallbackStr then "" else replaceFirstSpace fallbackStr in
  let date := if isEmpty normalizedPrimary then None else parseDate normalizedPrimary in
  match date with
  | Some instant => Some instant
  | None => if isEmpty normalizedFallback then Some now else parseDate normalizedFallback
  end.

(** [date.toISOString()] throws a [RangeError] on an invalid date. *)
Definition convertRevolutToAppTransaction (revolut : RevolutTransaction)
  : outcome ParsedTransaction :=
  let isExpense := isNegative (rev_amount revolut) in
  let amountInCents := round (times100 (abs (rev_amount revolut))) in
  let counterparty := if isExpense then rev_payee revolut else rev_payer revolut in
  let generic := if isExpense then "Expense" else "Income" in
  let swapped :=
    isEmpty (rev_description revolut)
    || String.eqb (toLowerCase (rev_description revolut)) "transfer" in
  let title := if swapped then counterparty else rev_description revolut in
  let subtitle :=
    if swapped then orElse (rev_description revolut) generic else counterparty in
  match revolutDate revolut with
  | None => Throw "Invalid time value"
  | Some instant =>
      Return {| title := orElse title generic;
                subtitle := orElse subtitle (orElse (rev_description revolut) "");
                amount := amountInCents;
                kind := if isExpense then expense else income;
                date := instant;
                categoryId :=
                  categorizeTransaction (orElse title "") (orElse subtitle "") isExpense;
                currency := orElse (rev_currency revolut) "EUR";
                excludeFromAnalytics := None;
                isAnalyticsProtected := None;
                displayName := Some (orElse title generic) |}
  end.
End convertRevolut.

End csvParser.

(** ** [src/app/import/aib/paste.tsx]: the display name of the paste screen *)

Module paste.
Import Js csvParser.

(** One turn of the [while] loop of lines 192-200. *)
Definition stripOnce (s : string) : string := trim (stripNoisePrefixes s).

(** The loop runs until a turn changes nothing.  A turn that changes the
    string shortens it, so [fuel] above the length is never used up. *)
Fixpoint stripLoop (fuel : nat) (cleanDisplayName : string) : string :=
  match fuel with
  | O => cleanDisplayName
  | S fuel' =>
      let next := stripOnce cleanDisplayName in
      if String.eqb next cleanDisplayName then cleanDisplayName
      else stripLoop fuel' next
  end.

(** [cleanDisplayName] of lines 190-205. *)
Definition cleanDisplayName (title : string) : string :=
  trim (removeTrailingAsterisks
          (removeMaskedCards false (stripLoop (S (String.length title)) title))).

End paste.

(** ** [src/app/import/revolut/preview.tsx]: deduplication *)

Module preview.
Import Js.
Export csvParser (Kind, income, expense).

(** The [Transaction] interface of the screen. *)
Record Transaction := {
  title : string;
  subtitle : string;
  amount : number;
  kind : Kind;
  date : Z;
  categoryId : string;
  currency : string;
  excludeFromAnalytics : option bool;
  isAnalyticsProtected : option bool;
  account : option string;
}.

(** A stored document, as far as the key reads it: [doc.title],
    [Number(doc.amount)], [doc.kind] and [doc.date] (documents are stored
    from canonical transactions, with an ISO instant as date). *)
Record Doc := {
  doc_title : string;
  doc_amount : number;
  doc_kind : Kind;
  doc_date : Z;
}.

(** [s.replace(/\\s+/g, " ")]: every run of white space becomes one
    space ([inRun] is true inside a run). *)
Fixpoint collapseWhiteSpace (inRun : bool) (s : string) : string :=
  match s with
  | EmptyString => EmptyString
  | String c s' =>
      if isWhiteSpace c
      then if inRun then collapseWhiteSpace true s'
           else String " " (collapseWhiteSpace true s')
      else String c (collapseWhiteSpace false s')
  end.

Definition normalizeText (s : string) : string :=
  trim (collapseWhiteSpace false (toLowerCase (orElse s ""))).

(** [d.toISOString().split('T')[0]]: the UTC calendar day, by number.
    The two early returns of the source, for an empty and for an
    unparsable date text, cannot be taken by an instant. *)
Definition normalizeDateForKey (value : Z) : Z := value / csvParser.msPerDay.

(** The key [`${title}|${amount}|${kind}|${day}`].  A printed number, a
    kind and a day contain no vertical bar, so the text is read back
    from the right without ambiguity: two keys are the same text
    exactly when their four parts are equal.  The key is modelled by
    the four parts. *)
Definition Key : Type := string * number * Kind * Z.

Definition makeKeyFromTransaction (t : Transaction) : Key :=
  (normalizeText (title t), abs (amount t), kind t, normalizeDateForKey (date t)).

Definition makeKeyFromDoc (doc : Doc) : Key :=
  (normalizeText (orElse (doc_title doc) ""), abs (doc_amount doc), doc_kind doc,
   normalizeDateForKey (doc_date doc)).

Global Instance Kind_countable : Countable Kind.
Proof.
  refine (inj_countable' (fun k => match k with income => true | expense => false end)
                         (fun b => if b then income else expense) _).
  intros []; reflexivity.
Defined.

Global Instance number_countable : Countable number.
Proof.
  refine (inj_countable'
            (fun x => match x with
                      | NaN => inl tt
                      | Infinity negative => inr (inl negative)
                      | Finite q => inr (inr q)
                      end)
            (fun s => match s with
                      | inl _ => NaN
                      | inr (inl negative) => Infinity negative
                      | inr (inr q) => Finite q
                      end) _).
  intros []; reflexivity.
Defined.

(** [existingKeys = new Set(existing.map(makeKeyFromDoc))] *)
Definition existingKeys (existing : list Doc) : gset Key :=
  list_to_set (List.map makeKeyFromDoc existing).

(** The dedupe loop of [handleImport] (lines 147-153). *)
Definition dedupe (existing : list Doc) (transactions : list Transaction)
  : list Transaction :=
  fold_left (fun (deduped : list Transaction) t =>
               if decide (makeKeyFromTransaction t ∈ existingKeys existing)
               then deduped else (deduped ++ [t])%list)
            transactions [].

(** The three values the precheck loop of lines 101-118 computes. *)
Record Precheck := {
  preSkippedCount : nat;
  preUniqueCount : nat;
  duplicateKeys : gset Key;
}.

Definition precheckStep (existing : list Doc) (st : Precheck) (t : Transaction)
  : Precheck :=
  let key := makeKeyFromTransaction t in
  if decide (key ∈ existingKeys existing)
  then {| preSkippedCount := S (preSkippedCount st);
          preUniqueCount := preUniqueCount st;
          duplicateKeys := {[key]} ∪ duplicateKeys st |}
  else {| preSkippedCount := preSkippedCount st;
          preUniqueCount := S (preUniqueCount st);
          duplicateKeys := duplicateKeys st |}.

(** [runPrecheck] (lines 93-122), given the fetched documents.  For an
    empty list the source returns before the loop and leaves the three
    values at their initial 0, 0 and empty set, which is what the loop
    over no transaction gives. *)
Definition runPrecheck (existing : list Doc) (transactions : list Transaction)
  : Precheck :=
  fold_left (precheckStep existing) transactions
            {| preSkippedCount := 0; preUniqueCount := 0; duplicateKeys := ∅ |}.

End preview.


(** * Vocabulary of the statements

    Example inputs and the predicates in which the properties below are
    phrased. *)

Module examples.
Import Js.

Definition newline : string := String "010" "".

Definition revolutExampleHeader : string :=
  "Type,Product,Started Date,Completed Date,Description,Amount,Fee,Currency,State,Balance".

Definition aibExampleHeader : string := "Date,Description,Debit,Credit,Balance".

(** A file whose header is neither an AIB nor a Revolut header. *)
Definition fallbackExampleFile : string :=
  "Date,Amount,Details,Ref" ++ newline ++ "05/01/2024,12.00,Shop,1".

(** A canonical transaction with the given title, amount in cents, kind,
    instant and currency. *)
Definition exampleTx (title : string) (cents : Z) (kind : csvParser.Kind) (date : Z)
           (currency : string) : csvParser.ParsedTransaction :=
  {| csvParser.title := title; csvParser.subtitle := "";
     csvParser.amount := ofZ cents; csvParser.kind := kind; csvParser.date := date;
     csvParser.categoryId := ""; csvParser.currency := currency;
     csvParser.excludeFromAnalytics := None; csvParser.isAnalyticsProtected := None;
     csvParser.displayName := None |}.

(** 2024-03-01T00:00:00.000Z *)
Definition march1 : Z := 1709251200000.

Definition day : Z := 86400000.

(** The fields of a row of an AIB file whose debit column holds [45,00]
    (the field is quoted in the file, so that its comma does not split
    it) and whose credit column is empty. *)
Definition debitCommaRow : string :=
  "05/01/2024,Shop," ++ String "034" "45,00" ++ String "034" ",,100".

Definition debitCommaFile : string := aibExampleHeader ++ newline ++ debitCommaRow.

(** The same row with a decimal point. *)
Definition debitPointFile : string :=
  aibExampleHeader ++ newline ++ "05/01/2024,Shop,45.00,,100".

Definition debitRecord (amount : number) : csvParser.AibTransaction :=
  {| csvParser.aib_date := "05/01/2024"; csvParser.aib_description := "Shop";
     csvParser.aib_amount := amount; csvParser.aib_currency := "EUR";
     csvParser.aib_balance := "100"; csvParser.aib_product := "AIB" |}.

(** An AIB record whose description stacks two noise prefixes. *)
Definition stackedPrefixRecord : csvParser.AibTransaction :=
  {| csvParser.aib_date := "05/01/2024"; csvParser.aib_description := "VDP-TST-Shop";
     csvParser.aib_amount := ofZ (-12); csvParser.aib_currency := "EUR";
     csvParser.aib_balance := ""; csvParser.aib_product := "AIB" |}.

(** The row with the debit text left unquoted: its comma separates two
    fields, [45] under Debit and [00] under Credit. *)
Definition debitUnquotedFile : string :=
  aibExampleHeader ++ newline ++ "05/01/2024,Shop,45,00,100".

(** A Revolut file with a good row, a short row, a blank line and a row
    whose amount is no number. *)
Definition revolutSkipsFile : string :=
  revolutExampleHeader ++ newline
  ++ "CARD,Current,2024-01-01 10:00:00,2024-01-02 10:00:00,Shop,-12.50,0.00,EUR,COMPLETED,100.00"
  ++ newline ++ "a,b" ++ newline ++ newline
  ++ "CARD,Current,2024-01-01 10:00:00,2024-01-02 10:00:00,Shop,n/a,0.00,EUR,COMPLETED,100.00".

(** Two candidates of an import and the documents stored for them. *)
Definition candidate (title : string) (cents : Z) (kind : csvParser.Kind) (date : Z)
  : preview.Transaction :=
  {| preview.title := title; preview.subtitle := ""; preview.amount := ofZ cents;
     preview.kind := kind; preview.date := date; preview.categoryId := "";
     preview.currency := "EUR"; preview.excludeFromAnalytics := None;
     preview.isAnalyticsProtected := None; preview.account := None |}.

Definition stored (t : preview.Transaction) : preview.Doc :=
  {| preview.doc_title := preview.title t; preview.doc_amount := preview.amount t;
     preview.doc_kind := preview.kind t; preview.doc_date := preview.date t |}.


End examples.

Module vocabulary.
Import Js csvParser.

(** The non-blank test of [lines.find] in [detectCSVProvider]. *)
Definition nonBlank (line : string) : bool := (0 <? String.length (trim line))%nat.

(** *** The greedy routines *)

(** The common shape of [aibScan] and [crossBankScan]: the first existing
    transaction that is not consumed and passes [test] is matched. *)
Fixpoint greedyScan (test : ParsedTransaction -> ParsedTransaction -> bool)
         (newTx : ParsedTransaction) (newIndex : nat)
         (existing : list ParsedTransaction) (existingIndex : nat)
         (st : MatchState) : MatchState :=
  match existing with
  | [] => st
  | existingTx :: rest =>
      if decide (existingIndex ∈ matchedExistingIndices st)
      then greedyScan test newTx newIndex rest (S existingIndex) st
      else if test newTx existingTx
      then recordMatch newIndex existingIndex st
      else greedyScan test newTx newIndex rest (S existingIndex) st
  end.

Definition greedyVisit (considered : ParsedTransaction -> bool)
           (test : ParsedTransaction -> ParsedTransaction -> bool)
           (existing : list ParsedTransaction)
           (st : MatchState) (entry : nat * ParsedTransaction) : MatchState :=
  if considered (snd entry)
  then greedyScan test (snd entry) (fst entry) existing 0 st
  else st.

Definition greedyState (considered : ParsedTransaction -> bool)
           (test : ParsedTransaction -> ParsedTransaction -> bool)
           (news existing : list ParsedTransaction) : MatchState :=
  fold_left (greedyVisit considered test existing) (imap pair news) emptyMatch.

Definition hasMarker (tx : ParsedTransaction) : bool := includes (title tx) marker.

(** What [detectAibTransfers] asks of an existing transaction for a new
    one: the marker, the same UTC day, the same absolute amount, the same
    currency, the other kind. *)
Definition aibTest (newTx existingTx : ParsedTransaction) : bool :=
  hasMarker existingTx && aibCriteria newTx existingTx.

Definition aibEligible (newTx existingTx : ParsedTransaction) : Prop :=
  includes (title existingTx) marker = true
  /\ dateKey newTx = dateKey existingTx
  /\ strictEq (abs (amount newTx)) (abs (amount existingTx)) = true
  /\ currency newTx = currency existingTx
  /\ kind newTx <> kind existingTx.

(** What [detectCrossBankTransfers] asks: the other kind, the same
    absolute amount, the same currency, instants at most 4 days apart. *)
Definition crossBankEligible (newTx existingTx : ParsedTransaction) : Prop :=
  kind newTx <> kind existingTx
  /\ strictEq (abs (amount newTx)) (abs (amount existingTx)) = true
  /\ currency newTx = currency existingTx
  /\ Z.abs (date newTx - date existingTx) <= 4 * msPerDay.

(** [e] is the first index of [existing], in list order, that is not in
    [consumed] and is eligible for [newTx]. *)
Definition firstAvailable (eligible : ParsedTransaction -> ParsedTransaction -> Prop)
           (newTx : ParsedTransaction) (existing : list ParsedTransaction)
           (consumed : gset nat) (e : nat) : Prop :=
  (exists tx, existing !! e = Some tx /\ eligible newTx tx)
  /\ (e ∉ consumed)
  /\ forall e' tx', (e' < e)%nat -> existing !! e' = Some tx' ->
                    eligible newTx tx' -> e' ∈ consumed.

Definition noneAvailable (eligible : ParsedTransaction -> ParsedTransaction -> Prop)
           (newTx : ParsedTransaction) (existing : list ParsedTransaction)
           (consumed : gset nat) : Prop :=
  forall e tx, existing !! e = Some tx -> eligible newTx tx -> e ∈ consumed.

(** The result with one more match. *)
Definition withMatch (r : MatchResult) (newIndex existingIndex : nat) : MatchResult :=
  {| newIndices := {[newIndex]} ∪ newIndices r;
     existingIndices := {[existingIndex]} ∪ existingIndices r;
     matchedPairs := matchedPairs r ++ [(newIndex, existingIndex)] |}.

Definition noMatch : MatchResult :=
  {| newIndices := ∅; existingIndices := ∅; matchedPairs := [] |}.

(** No index occurs in two pairs, on either side, and the two index sets
    are the two sides of the pairs. *)
Definition oneToOne (r : MatchResult) : Prop :=
  NoDup (List.map fst (matchedPairs r))
  /\ NoDup (List.map snd (matchedPairs r))
  /\ newIndices r = list_to_set (List.map fst (matchedPairs r))
  /\ existingIndices r = list_to_set (List.map snd (matchedPairs r)).

(** What holds of the state after the new transactions before index [n]. *)
Definition greedyInvariant (n : nat) (st : MatchState) : Prop :=
  matchedExistingIndices st = existingTransferIndices st
  /\ newTransferIndices st = list_to_set (List.map fst (statePairs st))
  /\ existingTransferIndices st = list_to_set (List.map snd (statePairs st))
  /\ NoDup (List.map fst (statePairs st))
  /\ NoDup (List.map snd (statePairs st))
  /\ forall p, p ∈ statePairs st -> (fst p < n)%nat.

(** *** Same-batch pairing *)










(** *** The AIB amount *)

(** The value of a column that holds "a non-empty non-zero value": the
    field exists, is not blank, and reads as a number other than zero. *)
Definition nonZeroColumn (fields : list string) (idx : Z) : option number :=
  match Aib.filledField fields idx with
  | Some text =>
      let v := Aib.parseAmountText text in
      if isNaN v || strictEq v zero then None else Some v
  | None => None
  end.

(** The amount of a row in the words of the specification: minus the
    absolute debit, else the absolute credit, else the amount column with
    its own sign (zero when that column has no text either). *)
Definition amountByPrecedence (c : Aib.Columns) (fields : list string) : number :=
  match nonZeroColumn fields (Aib.debitIdx c) with
  | Some debit => neg (abs debit)
  | None =>
      match nonZeroColumn fields (Aib.creditIdx c) with
      | Some credit => abs credit
      | None =>
          match Aib.truthyField fields (Aib.amountIdx c) with
          | Some f => Aib.parseAmountText (trim f)
          | None => zero
          end
      end
  end.

(** A rational as a [number]. *)
Definition ofQ (q : Q) : number := Finite (Q2Qc q).

(** A parse that kept every row. *)
Definition allParsed {T} (records : list T) : ParseResult T :=
  {| transactions := records; skipped := 0;
     totalRows := List.length records; skippedDetails := [] |}.


(** *** Row bookkeeping *)

(** The records of the rows that parse, in order. *)
Fixpoint parsedFrom {T} (row : string -> RowOutcome T) (rows : list string) : list T :=
  match rows with
  | [] => []
  | l :: rest =>
      match row l with
      | Parsed record => record :: parsedFrom row rest
      | Skip _ => parsedFrom row rest
      end
  end.

(** The skip entries of the rows that do not, in order; [i] is the index
    in [lines] of the first row, so its line number is [i + 1]. *)
Fixpoint skippedFrom {T} (row : string -> RowOutcome T) (i : nat) (rows : list string)
  : list SkippedRow :=
  match rows with
  | [] => []
  | l :: rest =>
      match row l with
      | Parsed _ => skippedFrom row (S i) rest
      | Skip why => {| line := i + 1; reason := why |} :: skippedFrom row (S i) rest
      end
  end.

(** The skip accounting of a parse result over [lines]. *)
Definition accounted {T} (row : string -> RowOutcome T) (lines : list string)
           (r : ParseResult T) : Prop :=
  totalRows r = (List.length (transactions r) + skipped r)%nat
  /\ List.length (skippedDetails r) = skipped r
  /\ totalRows r = (List.length lines - 1)%nat
  /\ transactions r = parsedFrom row (drop 1 lines)
  /\ skippedDetails r = skippedFrom row 1 (drop 1 lines)
  /\ forall entry : SkippedRow,
       entry ∈ skippedDetails r
       <-> exists i l why,
           (1 <= i)%nat /\ lines !! i = Some l /\ row l = Skip why
           /\ entry = {| line := i + 1; reason := why |}.

(** Why a row is skipped: blank, too few fields, or an amount that is
    not a number. *)
Definition skipReason (minimum : nat) (amountOf : list string -> number)
           (l why : string) : Prop :=
  (trim l = "" /\ why = "Empty line")
  \/ (trim l <> "" /\ (List.length (parseCSVLine (trim l)) < minimum)%nat
      /\ why = "Not enough columns")
  \/ (trim l <> "" /\ (minimum <= List.length (parseCSVLine (trim l)))%nat
      /\ isNaN (amountOf (parseCSVLine (trim l))) = true
      /\ why = "Invalid amount").

(** *** Deduplication *)



(** *** Marking *)

(** What transfer detection reads of a transaction. *)
Definition detectionView (tx : ParsedTransaction) : Z * number * string * Kind :=
  (date tx, amount tx, currency tx, kind tx).



(** *** Writing a CSV line *)

(** A field written between double quotes, its own quotes doubled. *)
Fixpoint escapeQuotes (field : string) : string :=
  match field with
  | EmptyString => EmptyString
  | String c rest =>
      if Ascii.eqb c dquote then String dquote (String dquote (escapeQuotes rest))
      else String c (escapeQuotes rest)
  end.

Definition quoteField (field : string) : string :=
  String dquote (escapeQuotes field ++ String dquote "").

(** The quoted fields, separated by commas. *)
Fixpoint joinQuoted (first : string) (others : list string) : string :=
  match others with
  | [] => quoteField first
  | next :: others' => quoteField first ++ String "," (joinQuoted next others')
  end.

(** The character does not occur in the string. *)
Fixpoint lacks (x : ascii) (s : string) : bool :=
  match s with
  | EmptyString => true
  | String c rest => negb (Ascii.eqb c x) && lacks x rest
  end.

(** *** Parsed records *)

(** The string has no white space at either end. *)
Definition trimmed (s : string) : Prop := trim s = s.

(** What holds of every record that [parseRevolutCSV] returns. *)
Definition revolutRecordOk (t : RevolutTransaction) : Prop :=
  isNaN (rev_amount t) = false
  /\ rev_currency t <> ""
  /\ rev_payer t = "" /\ rev_payee t = ""
  /\ trimmed (rev_type t) /\ trimmed (rev_product t)
  /\ trimmed (rev_startedDate t) /\ trimmed (rev_completedDate t)
  /\ trimmed (rev_description t) /\ trimmed (rev_currency t)
  /\ trimmed (rev_state t) /\ trimmed (rev_balance t).


(** The result of a parse with one more blank line at the end. *)
Definition withBlankLine {T} (r : ParseResult T) : ParseResult T :=
  {| transactions := transactions r;
     skipped := S (skipped r);
     totalRows := S (totalRows r);
     skippedDetails :=
       skippedDetails r ++ [{| line := totalRows r + 2; reason := "Empty line" |}] |}.

(** The text with every line feed preceded by a carriage return. *)
Fixpoint toCRLF (s : string) : string :=
  match s with
  | EmptyString => EmptyString
  | String c rest =>
      if Ascii.eqb c "010" then String "013" (String "010" (toCRLF rest))
      else String c (toCRLF rest)
  end.

(** *** Column resolution *)

(** [i] is the first position of [l] whose element satisfies [p]. *)
Definition firstWhere {A} (p : A -> bool) (l : list A) (i : nat) : Prop :=
  exists x, l !! i = Some x /\ p x = true
            /\ forall j y, (j < i)%nat -> l !! j = Some y -> p y = false.

(** [i] is the last position of [l] whose element satisfies [p]. *)
Definition lastWhere {A} (p : A -> bool) (l : list A) (i : nat) : Prop :=
  exists x, l !! i = Some x /\ p x = true
            /\ forall j y, (i < j)%nat -> l !! j = Some y -> p y = false.

(** The normalised form of a header cell. *)
Definition normalHeader (h : string) : string := toLowerCase (trim h).

(** *** Display names *)



(** *** Canonical transactions *)

(** A canonical amount: a whole number of cents that is not negative,
    or positive infinity. *)
Definition centsOk (x : number) : Prop :=
  x = Infinity false \/ exists n : Z, 0 <= n /\ x = ofZ n.

End vocabulary.

(** * Properties *)

Import Js examples vocabulary.
Local Open Scope list_scope.

(** ** Strings *)

Lemma isEmpty_true (s : string) : isEmpty s = true <-> s = "".
Proof. destruct s; simpl; split; congruence. Qed.

Lemma isEmpty_false (s : string) : isEmpty s = false <-> s <> "".
Proof. destruct s; simpl; split; congruence. Qed.

Lemma length_zero_empty (s : string) : String.length s = 0%nat <-> s = "".
Proof. destruct s; simpl; split; congruence. Qed.

Lemma split_nonempty (sep : ascii) (s : string) : split sep s <> [].
Proof.
  induction s as [|c s IH]; simpl; [discriminate|].
  destruct (Ascii.eqb c sep); [discriminate|].
  destruct (split sep s); discriminate.
Qed.

Lemma split_length_pos (sep : ascii) (s : string) : (0 < List.length (split sep s))%nat.
Proof.
  pose proof (split_nonempty sep s). destruct (split sep s); simpl; [congruence|lia].
Qed.

(** ** Format detection *)

Section detector.
Import csvDetector.

Lemma detect_unfold (csvContent headerLine : string) :
  trim csvContent <> "" ->
  List.find nonBlank (split "010" (trim csvContent)) = Some headerLine ->
  detectCSVProvider csvContent =
    let lines := split "010" (trim csvContent) in
    let headerLower := toLowerCase headerLine in
    if aibHeader headerLower then aib
    else if revolutHeader headerLower then revolut
    else if (1 <? List.length lines)%nat then
      match lines !! 1%nat with
      | None => unknown
      | Some firstDataLine =>
          let columns := List.map trim (split "," firstDataLine) in
          if (10 <=? List.length columns)%nat then revolut
          else if (4 <=? List.length columns)%nat && (List.length columns <=? 7)%nat
          then if existsb datePattern columns then aib else unknown
          else unknown
      end
    else unknown.
Proof.
  intros Hne Hfind. unfold detectCSVProvider.
  assert (isEmpty csvContent = false) as ->.
  { apply isEmpty_false. intros ->. apply Hne. reflexivity. }
  assert ((String.length (trim csvContent) =? 0)%nat = false) as ->.
  { apply Nat.eqb_neq. rewrite length_zero_empty. exact Hne. }
  simpl orb. cbv iota.
  assert ((List.length (split "010" (trim csvContent)) =? 0)%nat = false) as ->.
  { apply Nat.eqb_neq. pose proof (split_length_pos "010" (trim csvContent)). lia. }
  fold nonBlank. rewrite Hfind. reflexivity.
Qed.

(** C7.  The AIB header test comes first, the Revolut header test second,
    the look at the second line last: the Revolut example header is
    classified as Revolut and the AIB example header as AIB; and for every
    file with a non-blank first line [headerLine], an AIB header gives AIB
    whatever else holds, a Revolut header that is no AIB header gives
    Revolut, and when neither test holds a second line of 4 to 7
    comma-separated columns, one of which (trimmed) has the shape
    d{1,2}/d{1,2}/d{2,4}, gives AIB. *)
Theorem detectCSVProvider_order :
  detectCSVProvider revolutExampleHeader = revolut
  /\ detectCSVProvider aibExampleHeader = aib
  /\ forall csvContent headerLine : string,
      trim csvContent <> "" ->
      List.find nonBlank (split "010" (trim csvContent)) = Some headerLine ->
      (aibHeader (toLowerCase headerLine) = true -> detectCSVProvider csvContent = aib)
      /\ (aibHeader (toLowerCase headerLine) = false ->
          revolutHeader (toLowerCase headerLine) = true ->
          detectCSVProvider csvContent = revolut)
      /\ (aibHeader (toLowerCase headerLine) = false ->
          revolutHeader (toLowerCase headerLine) = false ->
          forall firstDataLine : string,
            split "010" (trim csvContent) !! 1%nat = Some firstDataLine ->
            (4 <= List.length (split "," firstDataLine) <= 7)%nat ->
            (exists col, In col (split "," firstDataLine) /\ datePattern (trim col) = true) ->
            detectCSVProvider csvContent = aib).
Proof.
  split; [vm_compute; reflexivity|]. split; [vm_compute; reflexivity|].
  intros csvContent headerLine Hne Hfind.
  rewrite (detect_unfold csvContent headerLine Hne Hfind). cbv zeta.
  split; [|split].
  - intros ->. reflexivity.
  - intros -> ->. reflexivity.
  - intros -> -> firstDataLine Hsecond Hcols [col [Hin Hpat]].
    assert ((1 <? List.length (split "010" (trim csvContent)))%nat = true) as ->.
    { apply Nat.ltb_lt. apply lookup_lt_Some in Hsecond. exact Hsecond. }
    rewrite Hsecond. rewrite length_map.
    assert ((10 <=? List.length (split "," firstDataLine))%nat = false) as ->.
    { apply Nat.leb_gt. lia. }
    assert ((4 <=? List.length (split "," firstDataLine))%nat = true) as ->.
    { apply Nat.leb_le. lia. }
    assert ((List.length (split "," firstDataLine) <=? 7)%nat = true) as ->.
    { apply Nat.leb_le. lia. }
    simpl andb. cbv iota.
    assert (existsb datePattern (List.map trim (split "," firstDataLine)) = true) as ->.
    { apply existsb_exists. exists (trim col). split; [|exact Hpat].
      apply in_map. exact Hin. }
    reflexivity.
Qed.

Lemma detectCSVProvider_order_witness :
  detectCSVProvider fallbackExampleFile = aib.
Proof.
  refine (proj2 (proj2 (proj2 (proj2 detectCSVProvider_order) fallbackExampleFile
                  "Date,Amount,Details,Ref" _ _)) _ _
                "05/01/2024,12.00,Shop,1" _ _ _).
  - vm_compute. discriminate.
  - vm_compute. reflexivity.
  - vm_compute. reflexivity.
  - vm_compute. reflexivity.
  - vm_compute. reflexivity.
  - vm_compute. lia.
  - exists "05/01/2024". split; [vm_compute; auto | vm_compute; reflexivity].
Defined.

End detector.

(** ** Greedy matching *)

Section greedy.
Import csvParser.

Variable considered : ParsedTransaction -> bool.
Variable test : ParsedTransaction -> ParsedTransaction -> bool.

Lemma greedyScan_cases (newTx : ParsedTransaction) (newIndex : nat)
      (existing : list ParsedTransaction) (k : nat) (st : MatchState) :
  (exists j tx,
      existing !! j = Some tx
      /\ ((k + j)%nat ∉ matchedExistingIndices st)
      /\ test newTx tx = true
      /\ (forall j' tx', (j' < j)%nat -> existing !! j' = Some tx' ->
                         test newTx tx' = true ->
                         (k + j')%nat ∈ matchedExistingIndices st)
      /\ greedyScan test newTx newIndex existing k st = recordMatch newIndex (k + j) st)
  \/ ((forall j tx, existing !! j = Some tx -> test newTx tx = true ->
                    (k + j)%nat ∈ matchedExistingIndices st)
      /\ greedyScan test newTx newIndex existing k st = st).
Proof.
  revert k. induction existing as [|x rest IH]; intros k; simpl.
  - right. split; [|reflexivity]. intros j tx H. rewrite lookup_nil in H. discriminate.
  - destruct (decide (k ∈ matchedExistingIndices st)) as [Hin|Hnotin].
    + destruct (IH (S k)) as [(j & tx & H1 & H2 & H3 & H4 & H5) | [H1 H2]].
      * left. exists (S j), tx. replace (k + S j)%nat with (S k + j)%nat by lia.
        repeat split; auto.
        intros [|j'] tx' Hlt Hl Ht; simpl in Hl.
        -- replace (k + 0)%nat with k by lia. exact Hin.
        -- replace (k + S j')%nat with (S k + j')%nat by lia.
           eapply H4; eauto. lia.
      * right. split; [|exact H2].
        intros [|j] tx Hl Ht; simpl in Hl.
        -- replace (k + 0)%nat with k by lia. exact Hin.
        -- replace (k + S j)%nat with (S k + j)%nat by lia. eapply H1; eauto.
    + destruct (test newTx x) eqn:Hx.
      * left. exists 0%nat, x. replace (k + 0)%nat with k by lia.
        repeat split; auto. intros j' tx' Hlt. lia.
      * destruct (IH (S k)) as [(j & tx & H1 & H2 & H3 & H4 & H5) | [H1 H2]].
        -- left. exists (S j), tx. replace (k + S j)%nat with (S k + j)%nat by lia.
           repeat split; auto.
           intros [|j'] tx' Hlt Hl Ht; simpl in Hl.
           ++ congruence.
           ++ replace (k + S j')%nat with (S k + j')%nat by lia.
              eapply H4; eauto. lia.
        -- right. split; [|exact H2].
           intros [|j] tx Hl Ht; simpl in Hl.
           ++ congruence.
           ++ replace (k + S j)%nat with (S k + j)%nat by lia. eapply H1; eauto.
Qed.

Lemma greedyState_snoc (news existing : list ParsedTransaction) (n : ParsedTransaction) :
  greedyState considered test (news ++ [n]) existing =
  greedyVisit considered test existing (greedyState considered test news existing)
              (List.length news, n).
Proof.
  unfold greedyState. rewrite imap_app, fold_left_app. simpl.
  replace (List.length news + 0)%nat with (List.length news) by lia. reflexivity.
Qed.

Lemma greedyInvariant_record (n e : nat) (st : MatchState) :
  greedyInvariant n st -> e ∉ matchedExistingIndices st ->
  greedyInvariant (S n) (recordMatch n e st).
Proof.
  intros (Hm & Hn & He & Hd1 & Hd2 & Hlt) Hfresh.
  unfold greedyInvariant, recordMatch; simpl.
  rewrite !map_app; simpl.
  rewrite !list_to_set_app_L; simpl.
  rewrite <- Hn, <- He, Hm.
  repeat split.
  - rewrite (right_id_L ∅ (∪)). apply (comm_L (∪)).
  - rewrite (right_id_L ∅ (∪)). apply (comm_L (∪)).
  - apply NoDup_app. repeat split; [exact Hd1 | | apply NoDup_singleton].
    intros x Hx Hx'. apply list_elem_of_singleton in Hx'. subst x.
    apply list_elem_of_fmap in Hx as [p [Hp Hin]].
    specialize (Hlt p Hin). lia.
  - apply NoDup_app. repeat split; [exact Hd2 | | apply NoDup_singleton].
    intros x Hx Hx'. apply list_elem_of_singleton in Hx'. subst x.
    apply Hfresh. rewrite Hm, He. apply elem_of_list_to_set. exact Hx.
  - intros p Hp. apply elem_of_app in Hp as [Hp|Hp].
    + specialize (Hlt p Hp). lia.
    + apply list_elem_of_singleton in Hp. subst p. simpl. lia.
Qed.

Lemma greedyInvariant_weaken (n : nat) (st : MatchState) :
  greedyInvariant n st -> greedyInvariant (S n) st.
Proof.
  intros (Hm & Hn & He & Hd1 & Hd2 & Hlt). repeat split; auto.
  intros p Hp. specialize (Hlt p Hp). lia.
Qed.

Lemma greedyState_invariant (news existing : list ParsedTransaction) :
  greedyInvariant (List.length news) (greedyState considered test news existing).
Proof.
  induction news as [|n news IH] using rev_ind.
  - unfold greedyState, greedyInvariant; simpl. repeat split; try constructor.
    intros p Hp. apply elem_of_nil in Hp. contradiction.
  - rewrite greedyState_snoc, length_app; simpl.
    replace (List.length news + 1)%nat with (S (List.length news)) by lia.
    unfold greedyVisit; simpl. destruct (considered n).
    + destruct (greedyScan_cases n (List.length news) existing 0
                  (greedyState considered test news existing))
        as [(j & tx & H1 & H2 & H3 & H4 & H5) | [H1 H2]].
      * rewrite H5. apply greedyInvariant_record; auto.
      * rewrite H2. apply greedyInvariant_weaken; auto.
    + apply greedyInvariant_weaken; auto.
Qed.

Lemma greedyState_step (news existing : list ParsedTransaction) (n : ParsedTransaction) :
  let st := greedyState considered test news existing in
  let st' := greedyState considered test (news ++ [n]) existing in
  (considered n = false -> st' = st)
  /\ (considered n = true ->
      (exists e, firstAvailable (fun a b => test a b = true) n existing
                                (existingTransferIndices st) e
                 /\ st' = recordMatch (List.length news) e st)
      \/ (noneAvailable (fun a b => test a b = true) n existing
                        (existingTransferIndices st)
          /\ st' = st)).
Proof.
  intros st st'. subst st'. rewrite greedyState_snoc. fold st.
  unfold greedyVisit; simpl.
  destruct (greedyState_invariant news existing) as (Hm & _). fold st in Hm.
  split; intros Hc; rewrite Hc; [reflexivity|].
  destruct (greedyScan_cases n (List.length news) existing 0 st)
    as [(j & tx & H1 & H2 & H3 & H4 & H5) | [H1 H2]].
  - left. exists j. simpl in *. rewrite Hm in *. split; [|exact H5].
    split; [exists tx; auto|]. split; [exact H2|].
    intros e' tx' Hlt Hl Ht. exact (H4 e' tx' Hlt Hl Ht).
  - right. split; [|exact H2]. intros e tx Hl Ht. rewrite <- Hm. exact (H1 e tx Hl Ht).
Qed.

End greedy.

Section transfers.
Import csvParser.

Lemma fold_left_pointwise {A B : Type} (f g : A -> B -> A) (l : list B) (a : A) :
  (forall x y, f x y = g x y) -> fold_left f l a = fold_left g l a.
Proof.
  intros Hfg. revert a. induction l as [|y l IH]; intros a; simpl; [reflexivity|].
  rewrite Hfg. apply IH.
Qed.

Lemma firstAvailable_iff (P Q : ParsedTransaction -> ParsedTransaction -> Prop)
      (newTx : ParsedTransaction) (existing : list ParsedTransaction)
      (consumed : gset nat) (e : nat) :
  (forall a b, P a b <-> Q a b) ->
  firstAvailable P newTx existing consumed e -> firstAvailable Q newTx existing consumed e.
Proof.
  intros HPQ ([tx [Hl Hp]] & Hfresh & Hfirst). split; [|split].
  - exists tx. split; [exact Hl|]. apply HPQ. exact Hp.
  - exact Hfresh.
  - intros e' tx' Hlt Hl' Hq. apply (Hfirst e' tx' Hlt Hl'). apply HPQ. exact Hq.
Qed.

Lemma noneAvailable_iff (P Q : ParsedTransaction -> ParsedTransaction -> Prop)
      (newTx : ParsedTransaction) (existing : list ParsedTransaction)
      (consumed : gset nat) :
  (forall a b, P a b <-> Q a b) ->
  noneAvailable P newTx existing consumed -> noneAvailable Q newTx existing consumed.
Proof.
  intros HPQ Hnone e tx Hl Hq. apply (Hnone e tx Hl). apply HPQ. exact Hq.
Qed.

Lemma oneToOne_of_invariant (n : nat) (st : MatchState) :
  greedyInvariant n st -> oneToOne (resultOf st).
Proof.
  intros (Hm & Hn & He & Hd1 & Hd2 & Hlt). unfold oneToOne, resultOf; simpl. auto.
Qed.

Lemma singleton_union_empty (i : nat) : ({[i]} ∪ ∅ : gset nat) = {[i]}.
Proof. apply (right_id_L ∅ (∪)). Qed.

(** *** The AIB routine *)

Lemma aibScan_greedy (newTx : ParsedTransaction) (newIndex : nat)
      (existing : list ParsedTransaction) (k : nat) (st : MatchState) :
  aibScan newTx newIndex existing k st = greedyScan aibTest newTx newIndex existing k st.
Proof.
  revert k. induction existing as [|x rest IH]; intros k; simpl; [reflexivity|].
  rewrite !IH. unfold aibTest, hasMarker.
  destruct (decide (k ∈ matchedExistingIndices st)); [reflexivity|].
  destruct (includes (title x) marker); simpl; reflexivity.
Qed.

Lemma detectAibTransfers_greedy (news existing : list ParsedTransaction) :
  detectAibTransfers news existing = resultOf (greedyState hasMarker aibTest news existing).
Proof.
  unfold detectAibTransfers, greedyState. f_equal.
  apply fold_left_pointwise. intros st [i n].
  unfold aibVisit, greedyVisit, hasMarker; simpl.
  rewrite aibScan_greedy. destruct (includes (title n) marker); reflexivity.
Qed.

Lemma aibTest_eligible (newTx existingTx : ParsedTransaction) :
  aibTest newTx existingTx = true <-> aibEligible newTx existingTx.
Proof.
  unfold aibTest, aibCriteria, aibEligible, hasMarker.
  rewrite !andb_true_iff, !bool_decide_eq_true, String.eqb_eq. tauto.
Qed.



(** *** The cross-bank routine *)

Lemma crossBankScan_greedy (newTx : ParsedTransaction) (newIndex : nat)
      (existing : list ParsedTransaction) (k : nat) (st : MatchState) :
  crossBankScan newTx newIndex existing k st
  = greedyScan crossBankCriteria newTx newIndex existing k st.
Proof.
  revert k. induction existing as [|x rest IH]; intros k; simpl; [reflexivity|].
  rewrite !IH. reflexivity.
Qed.

Lemma detectCrossBankTransfers_greedy (news existing : list ParsedTransaction)
      (newSource existingSource : Source) :
  detectCrossBankTransfers news existing newSource existingSource
  = resultOf (greedyState (fun _ => true) crossBankCriteria news existing).
Proof.
  unfold detectCrossBankTransfers, greedyState. f_equal.
  apply fold_left_pointwise. intros st [i n].
  unfold crossBankVisit, greedyVisit; simpl. apply crossBankScan_greedy.
Qed.

Lemma crossBankCriteria_eligible (newTx existingTx : ParsedTransaction) :
  crossBankCriteria newTx existingTx = true <-> crossBankEligible newTx existingTx.
Proof.
  unfold crossBankCriteria, crossBankEligible.
  destruct (bool_decide_reflect (Z.abs (date newTx - date existingTx) > 4 * msPerDay)) as [Hd|Hd];
    [split; [discriminate | intros (_ & _ & _ & H); lia]|].
  destruct (strictEq (abs (amount newTx)) (abs (amount existingTx))); simpl;
    [|split; [discriminate | intros (_ & H & _); discriminate]].
  destruct (String.eqb_spec (currency newTx) (currency existingTx)) as [Hc|Hc]; simpl;
    [|split; [discriminate | intros (_ & _ & H & _); contradiction]].
  destruct (bool_decide_reflect (kind newTx = kind existingTx)) as [Hk|Hk];
    [split; [discriminate | intros (H & _); contradiction]|].
  split; [|reflexivity]. intros _. repeat split; auto; lia.
Qed.

Lemma detectCrossBankTransfers_single (newTx existingTx : ParsedTransaction)
      (newSource existingSource : Source) :
  detectCrossBankTransfers [newTx] [existingTx] newSource existingSource
  = if crossBankCriteria newTx existingTx
    then {| newIndices := {[0%nat]}; existingIndices := {[0%nat]};
            matchedPairs := [(0%nat, 0%nat)] |}
    else noMatch.
Proof.
  unfold detectCrossBankTransfers; simpl.
  destruct (decide (0%nat ∈ (∅ : gset nat))) as [Hin|_]; [set_solver|].
  destruct (crossBankCriteria newTx existingTx); [|reflexivity].
  unfold resultOf, recordMatch; simpl. rewrite !singleton_union_empty. reflexivity.
Qed.

(** C5.  [detectCrossBankTransfers] pairs a new transaction with the
    first existing transaction, in list order, that no earlier pair has
    consumed and that has the other kind, the same absolute amount, the
    same currency and an instant at most 4 days away; it adds only that
    pair, and nothing when there is no such transaction.  No index occurs
    in two pairs.  Two transactions that agree on amount and currency and
    differ in kind are matched when exactly 4 days apart and are not
    matched when 5 days apart. *)
Theorem detectCrossBankTransfers_four_days
        (news existing : list ParsedTransaction) (n : ParsedTransaction)
        (newSource existingSource : Source) :
  let r := detectCrossBankTransfers news existing newSource existingSource in
  let r' := detectCrossBankTransfers (news ++ [n]) existing newSource existingSource in
  detectCrossBankTransfers [] existing newSource existingSource = noMatch
  /\ ((exists e, firstAvailable crossBankEligible n existing (existingIndices r) e
                 /\ r' = withMatch r (List.length news) e)
      \/ (noneAvailable crossBankEligible n existing (existingIndices r) /\ r' = r))
  /\ oneToOne r
  /\ (forall e : ParsedTransaction,
        kind n <> kind e ->
        strictEq (abs (amount n)) (abs (amount e)) = true ->
        currency n = currency e ->
        (Z.abs (date n - date e) = 4 * msPerDay ->
         detectCrossBankTransfers [n] [e] newSource existingSource
         = {| newIndices := {[0%nat]}; existingIndices := {[0%nat]};
              matchedPairs := [(0%nat, 0%nat)] |})
        /\ (Z.abs (date n - date e) = 5 * msPerDay ->
            detectCrossBankTransfers [n] [e] newSource existingSource = noMatch)).
Proof.
  intros r r'. subst r r'. rewrite !detectCrossBankTransfers_greedy.
  destruct (greedyState_step (fun _ => true) crossBankCriteria news existing n)
    as [_ Hstep].
  cbv zeta beta in Hstep.
  split; [reflexivity|]. split; [|split].
  - destruct (Hstep eq_refl) as [[e [Hfirst ->]] | [Hnone ->]].
    + left. exists e. split; [|reflexivity].
      eapply firstAvailable_iff; [|exact Hfirst]. apply crossBankCriteria_eligible.
    + right. split; [|reflexivity].
      eapply noneAvailable_iff; [|exact Hnone]. apply crossBankCriteria_eligible.
  - eapply oneToOne_of_invariant. apply greedyState_invariant.
  - intros e Hk Ha Hc. rewrite detectCrossBankTransfers_single. split; intros Hd.
    + assert (crossBankCriteria n e = true) as ->; [|reflexivity].
      apply crossBankCriteria_eligible. repeat split; auto. lia.
    + destruct (crossBankCriteria n e) eqn:Hcrit; [|reflexivity].
      apply crossBankCriteria_eligible in Hcrit as (_ & _ & _ & Hle).
      unfold msPerDay in *. lia.
Qed.

Lemma detectCrossBankTransfers_four_days_witness :
  detectCrossBankTransfers [exampleTx "To AIB" 5000 expense march1 "EUR"]
                           [exampleTx "From Revolut" 5000 income (march1 + 4 * day) "EUR"]
                           revolut_import aib_import
  = {| newIndices := {[0%nat]}; existingIndices := {[0%nat]};
       matchedPairs := [(0%nat, 0%nat)] |}
  /\ detectCrossBankTransfers [exampleTx "To AIB" 5000 expense march1 "EUR"]
                              [exampleTx "From Revolut" 5000 income (march1 + 5 * day) "EUR"]
                              revolut_import aib_import
     = noMatch.
Proof.
  split.
  - refine (proj1 (proj2 (proj2 (proj2
              (detectCrossBankTransfers_four_days
                 [] [] (exampleTx "To AIB" 5000 expense march1 "EUR")
                 revolut_import aib_import)))
              (exampleTx "From Revolut" 5000 income (march1 + 4 * day) "EUR") _ _ _) _).
    + vm_compute. discriminate.
    + vm_compute. reflexivity.
    + vm_compute. reflexivity.
    + vm_compute. reflexivity.
  - refine (proj2 (proj2 (proj2 (proj2
              (detectCrossBankTransfers_four_days
                 [] [] (exampleTx "To AIB" 5000 expense march1 "EUR")
                 revolut_import aib_import)))
              (exampleTx "From Revolut" 5000 income (march1 + 5 * day) "EUR") _ _ _) _).
    + vm_compute. discriminate.
    + vm_compute. reflexivity.
    + vm_compute. reflexivity.
    + vm_compute. reflexivity.
Defined.

(** C10.  The result of [detectCrossBankTransfers] does not depend on the
    two source labels: any two choices of labels give the same index sets
    and the same pairs.  In particular the routine itself does not ask the
    two sides to come from different providers: an eligible pair is
    matched under equal labels too. *)
Theorem detectCrossBankTransfers_ignores_sources
        (news existing : list ParsedTransaction)
        (newSource existingSource newSource' existingSource' : Source) :
  detectCrossBankTransfers news existing newSource existingSource
  = detectCrossBankTransfers news existing newSource' existingSource'
  /\ forall (newTx existingTx : ParsedTransaction) (source : Source),
      crossBankEligible newTx existingTx ->
      detectCrossBankTransfers [newTx] [existingTx] source source
      = {| newIndices := {[0%nat]}; existingIndices := {[0%nat]};
           matchedPairs := [(0%nat, 0%nat)] |}.
Proof.
  split; [reflexivity|]. intros newTx existingTx source Helig.
  rewrite detectCrossBankTransfers_single.
  apply crossBankCriteria_eligible in Helig. rewrite Helig. reflexivity.
Qed.

Lemma detectCrossBankTransfers_ignores_sources_witness :
  detectCrossBankTransfers [exampleTx "Out" 5000 expense march1 "EUR"]
                           [exampleTx "In" 5000 income (march1 + day) "EUR"]
                           aib_import aib_import
  = {| newIndices := {[0%nat]}; existingIndices := {[0%nat]};
       matchedPairs := [(0%nat, 0%nat)] |}.
Proof.
  refine (proj2 (detectCrossBankTransfers_ignores_sources
                   [] [] aib_import aib_import aib_import aib_import)
                (exampleTx "Out" 5000 expense march1 "EUR")
                (exampleTx "In" 5000 income (march1 + day) "EUR") aib_import _).
  repeat split; try (vm_compute; reflexivity).
  - vm_compute. discriminate.
  - vm_compute. discriminate.
Defined.

End transfers.

(** ** Same-batch pairing *)

Section pairing.
Import csvParser.

Variable transactions : list ParsedTransaction.











End pairing.

Section grouping.
Import csvParser.







End grouping.

Section counting.
Import csvParser.










End counting.

Section occurrences.
Import csvParser.




Variable transactions : list ParsedTransaction.











End occurrences.


Section pairs_theorem.
Import csvParser.



End pairs_theorem.

(** ** Numbers *)

Lemma Finite_inj (p q : Qc) : Finite p = Finite q -> p = q.
Proof. intros H. injection H as ->. reflexivity. Qed.

Lemma strictEq_zero_abs (v : number) :
  isNaN v = false -> strictEq v zero = false -> strictEq (abs v) zero = false.
Proof.
  destruct v as [|negative|q]; simpl; [discriminate|reflexivity|].
  intros _ Hne. apply bool_decide_eq_false in Hne. apply bool_decide_eq_false.
  intros H. apply Hne. f_equal. apply Finite_inj in H.
  apply Qc_is_canon. apply Q2Qc_eq_iff in H.
  destruct q as [[n d] Hcanon]. unfold Qeq in *; simpl in *. lia.
Qed.

Lemma strictEq_zero_neg (v : number) :
  strictEq v zero = false -> strictEq (neg v) zero = false.
Proof.
  destruct v as [|negative|q]; simpl; [reflexivity|reflexivity|].
  intros Hne. apply bool_decide_eq_false in Hne. apply bool_decide_eq_false.
  intros H. apply Hne. f_equal. apply Finite_inj in H.
  rewrite <- (Qcopp_involutive q), H. apply Qc_is_canon. reflexivity.
Qed.

(** ** The AIB amount *)

Section aib_amount.
Import csvParser.

Lemma afterDebit_precedence (c : Aib.Columns) (fields : list string) :
  Aib.afterDebit c fields
  = match nonZeroColumn fields (Aib.debitIdx c) with
    | Some debit => neg (abs debit)
    | None => zero
    end.
Proof.
  unfold Aib.afterDebit, nonZeroColumn.
  destruct (Aib.filledField fields (Aib.debitIdx c)) as [text|]; [|reflexivity].
  cbv zeta. destruct (isNaN (Aib.parseAmountText text)); simpl; [reflexivity|].
  destruct (strictEq (Aib.parseAmountText text) zero); reflexivity.
Qed.

Lemma nonZeroColumn_Some (fields : list string) (idx : Z) (v : number) :
  nonZeroColumn fields idx = Some v -> isNaN v = false /\ strictEq v zero = false.
Proof.
  unfold nonZeroColumn. destruct (Aib.filledField fields idx) as [text|]; [|discriminate].
  cbv zeta. destruct (isNaN (Aib.parseAmountText text)) eqn:Hnan; simpl; [discriminate|].
  destruct (strictEq (Aib.parseAmountText text) zero) eqn:Hz; [discriminate|].
  intros H. injection H as <-. auto.
Qed.

Lemma strictEq_zero_zero : strictEq zero zero = true.
Proof. reflexivity. Qed.

Lemma rowAmount_precedence (c : Aib.Columns) (fields : list string) :
  Aib.rowAmount c fields = amountByPrecedence c fields.
Proof.
  unfold Aib.rowAmount, Aib.afterCredit, amountByPrecedence.
  rewrite afterDebit_precedence.
  destruct (nonZeroColumn fields (Aib.debitIdx c)) as [debit|] eqn:Hdebit.
  - apply nonZeroColumn_Some in Hdebit as [Hnan Hz].
    rewrite (strictEq_zero_neg _ (strictEq_zero_abs _ Hnan Hz)).
    rewrite (strictEq_zero_neg _ (strictEq_zero_abs _ Hnan Hz)). reflexivity.
  - rewrite strictEq_zero_zero. unfold nonZeroColumn.
    destruct (Aib.filledField fields (Aib.creditIdx c)) as [text|];
      [|cbv iota; rewrite strictEq_zero_zero; reflexivity].
    cbv zeta. destruct (isNaN (Aib.parseAmountText text)) eqn:Hnan; cbn [negb andb orb];
      [rewrite strictEq_zero_zero; reflexivity|].
    destruct (strictEq (Aib.parseAmountText text) zero) eqn:Hz; cbn [negb andb orb];
      [rewrite strictEq_zero_zero; reflexivity|].
    rewrite (strictEq_zero_abs _ Hnan Hz). reflexivity.
Qed.

(** C3, as the code has it.  The amount of an AIB row follows the
    precedence debit, credit, amount: a debit column holding a number
    other than zero gives minus its absolute value; otherwise such a
    credit column gives its absolute value; otherwise the amount column is
    read with its own sign.  Every comma is deleted from the text before
    it is read, so a comma never acts as a decimal mark: the row with
    debit [45,00] and no credit yields the amount -4500, canonicalised to
    kind expense with 450000 minor units, while the row with debit [45.00]
    yields -45 and 4500 minor units (as does a row in which the text 45,00
    is not quoted, where the comma separates a debit of 45 from a credit
    of 00). *)
Theorem aib_amount_precedence :
  (forall (c : Aib.Columns) (fields : list string),
      Aib.rowAmount c fields = amountByPrecedence c fields)
  /\ (forall text : string, Aib.parseAmountText text = parseFloat (removeChar "," text))
  /\ parseAibCSV debitCommaFile = Return (allParsed [debitRecord (ofZ (-4500))])
  /\ parseAibCSV debitPointFile = Return (allParsed [debitRecord (ofZ (-45))])
  /\ parseAibCSV debitUnquotedFile = Return (allParsed [debitRecord (ofZ (-45))])
  /\ (forall (categorizeTransaction : string -> string -> bool -> string)
             (resolveDate : string -> Z),
        let commaTx := convertAibToAppTransaction categorizeTransaction resolveDate
                                                  (debitRecord (ofZ (-4500))) in
        let pointTx := convertAibToAppTransaction categorizeTransaction resolveDate
                                                  (debitRecord (ofZ (-45))) in
        kind commaTx = expense /\ amount commaTx = ofZ 450000
        /\ kind pointTx = expense /\ amount pointTx = ofZ 4500).
Proof.
  split; [exact rowAmount_precedence|]. split; [reflexivity|].
  split; [vm_compute; reflexivity|]. split; [vm_compute; reflexivity|].
  split; [vm_compute; reflexivity|].
  intros categorizeTransaction resolveDate commaTx pointTx.
  repeat split; vm_compute; reflexivity.
Qed.

(** Against C3 as stated.  The row with debit [45,00] and no credit: the
    record read from it does not have the amount -45, and its canonical
    amount is not 4500 minor units. *)
Lemma aib_debit_comma_not_45 :
  exists t : AibTransaction,
    parseAibCSV debitCommaFile = Return (allParsed [t])
    /\ aib_amount t <> ofZ (-45)
    /\ forall (categorizeTransaction : string -> string -> bool -> string)
              (resolveDate : string -> Z),
        amount (convertAibToAppTransaction categorizeTransaction resolveDate t)
        <> ofZ 4500.
Proof.
  exists (debitRecord (ofZ (-4500))). split; [vm_compute; reflexivity|]. split.
  - intros H. apply Finite_inj in H. apply (f_equal this) in H.
    vm_compute in H. discriminate.
  - intros categorizeTransaction resolveDate H.
    assert (amount (convertAibToAppTransaction categorizeTransaction resolveDate
                                               (debitRecord (ofZ (-4500))))
            = ofZ 450000) as Hreal by (vm_compute; reflexivity).
    rewrite Hreal in H. apply Finite_inj in H. apply (f_equal this) in H.
    vm_compute in H. discriminate.
Qed.

End aib_amount.

(** ** The display name *)

Section display_name.
Import csvParser.









(** C6, at the input on which the code departs from it.  For the
    description [VDP-TST-Shop], [convertAibToAppTransaction] removes the
    first prefix only: the display name is [TST-Shop], which still starts
    with a noise prefix and is not a fixed point of the prefix stripping.
    The loop of the paste screen, run on the same title, removes both
    prefixes and gives [Shop]. *)
Theorem convertAib_keeps_stacked_prefix
        (categorizeTransaction : string -> string -> bool -> string)
        (resolveDate : string -> Z) :
  title (convertAibToAppTransaction categorizeTransaction resolveDate stackedPrefixRecord)
  = "VDP-TST-Shop"
  /\ displayName (convertAibToAppTransaction categorizeTransaction resolveDate
                                             stackedPrefixRecord)
     = Some "TST-Shop"
  /\ stripNoisePrefixes "TST-Shop" = "Shop"
  /\ paste.cleanDisplayName "VDP-TST-Shop" = "Shop".
Proof. repeat split; vm_compute; reflexivity. Qed.

End display_name.

(** ** Fatal errors of the parsers *)

Section fatal.
Import csvParser.




Lemma columnMap_fold_None (f : string -> string) (l : list (nat * string))
      (m0 : gmap string nat) (name : string) :
  fold_left (fun (m : gmap string nat) '(index, header) => <[f header := index]> m) l m0
    !! name = None
  <-> m0 !! name = None /\ name ∉ List.map (fun e => f (snd e)) l.
Proof.
  revert m0. induction l as [|[i h] l IH]; intros m0; simpl.
  - split; [intros H; split; [exact H|apply not_elem_of_nil] | tauto].
  - rewrite IH, not_elem_of_cons. destruct (decide (f h = name)) as [->|Hne].
    + rewrite lookup_insert_eq. split; [intros [H _]; discriminate | intros [_ [H _]]; congruence].
    + rewrite lookup_insert_ne by exact Hne. split; [intros [H1 H2]|intros [H1 [H2 H3]]]; auto.
Qed.

Lemma map_snd_imap (f : string -> string) (g : nat -> nat) (l : list string) :
  List.map (fun e : nat * string => f (snd e)) (imap (fun i x => (g i, x)) l) = List.map f l.
Proof.
  revert g. induction l as [|x l IH]; intros g; simpl; [reflexivity|].
  f_equal. apply (IH (fun i => g (S i))).
Qed.

Lemma columnMap_None (headerFields : list string) (name : string) :
  Revolut.columnMap headerFields !! name = None
  <-> name ∉ List.map (fun h => toLowerCase (trim h)) headerFields.
Proof.
  unfold Revolut.columnMap.
  rewrite (columnMap_fold_None (fun h => toLowerCase (trim h))).
  rewrite (map_snd_imap (fun h => toLowerCase (trim h)) (fun i => i)).
  rewrite lookup_empty. tauto.
Qed.


Lemma findIndexFrom_missing {A : Type} (p : A -> bool) (l : list A) (i : nat) :
  Aib.findIndexFrom p l i = -1 <-> forall x, x ∈ l -> p x = false.
Proof.
  revert i. induction l as [|y l IH]; intros i; simpl.
  - split; [intros _ x H; apply elem_of_nil in H; contradiction | reflexivity].
  - destruct (p y) eqn:Hy.
    + split; [intros H; lia|]. intros H. rewrite (H y) in Hy by left. discriminate.
    + rewrite IH. split.
      * intros H x Hx. apply elem_of_cons in Hx as [->|Hx]; [exact Hy|apply H, Hx].
      * intros H x Hx. apply H. right. exact Hx.
Qed.





End fatal.

(** ** Skip accounting *)

Section accounting.
Import csvParser.

Lemma rowLoop_spec {T : Type} (row : string -> RowOutcome T) (rows : list string)
      (i : nat) (st : RowLoop T) :
  loop_transactions (rowLoop row rows i st) = loop_transactions st ++ parsedFrom row rows
  /\ loop_skippedDetails (rowLoop row rows i st)
     = loop_skippedDetails st ++ skippedFrom row i rows
  /\ loop_skipped (rowLoop row rows i st)
     = (loop_skipped st + List.length (skippedFrom row i rows))%nat
  /\ List.length rows
     = (List.length (parsedFrom row rows) + List.length (skippedFrom row i rows))%nat.
Proof.
  revert i st. induction rows as [|l rows IH]; intros i st; simpl.
  - rewrite !app_nil_r. repeat split; lia.
  - destruct (IH (S i) (rowStep i (row l) st)) as (H1 & H2 & H3 & H4).
    rewrite H1, H2, H3. unfold rowStep.
    destruct (row l) as [record|why]; simpl; rewrite <- ?app_assoc; simpl;
      repeat split; lia.
Qed.

Lemma elem_of_skippedFrom {T : Type} (row : string -> RowOutcome T) (i : nat)
      (rows : list string) (entry : SkippedRow) :
  entry ∈ skippedFrom row i rows
  <-> exists j l why, rows !! j = Some l /\ row l = Skip why
                      /\ entry = {| line := i + j + 1; reason := why |}.
Proof.
  revert i. induction rows as [|l rows IH]; intros i; simpl.
  - split; [intros H; apply elem_of_nil in H; contradiction|].
    intros (j & l & why & H & _). rewrite lookup_nil in H. discriminate.
  - assert (entry ∈ skippedFrom row (S i) rows
            <-> exists j l0 why, (l :: rows) !! S j = Some l0 /\ row l0 = Skip why
                                 /\ entry = {| line := i + S j + 1; reason := why |}) as Hrest.
    { rewrite IH. split; intros (j & l0 & why & H1 & H2 & H3); exists j, l0, why;
        (split; [exact H1|]); (split; [exact H2|]); rewrite H3; f_equal; lia. }
    destruct (row l) as [record|why0] eqn:Hrow.
    + rewrite Hrest. split.
      * intros (j & l0 & why & H). exists (S j), l0, why. exact H.
      * intros ([|j] & l0 & why & H1 & H2 & H3); simpl in H1.
        -- injection H1 as <-. congruence.
        -- exists j, l0, why. auto.
    + rewrite elem_of_cons, Hrest. split.
      * intros [-> | (j & l0 & why & H)].
        -- exists 0%nat, l, why0. repeat split; [exact Hrow|]. f_equal. lia.
        -- exists (S j), l0, why. exact H.
      * intros ([|j] & l0 & why & H1 & H2 & H3); simpl in H1.
        -- injection H1 as <-. left. rewrite H3. rewrite Hrow in H2. injection H2 as <-.
           f_equal. lia.
        -- right. exists j, l0, why. auto.
Qed.

Lemma rowLoop_accounted {T : Type} (row : string -> RowOutcome T) (lines : list string) :
  let st := rowLoop row (drop 1 lines) 1 emptyLoop in
  accounted row lines
            {| transactions := loop_transactions st;
               skipped := loop_skipped st;
               totalRows := Nat.max 0 (List.length lines - 1);
               skippedDetails := loop_skippedDetails st |}.
Proof.
  intros st. subst st.
  destruct (rowLoop_spec row (drop 1 lines) 1 emptyLoop) as (H1 & H2 & H3 & H4).
  unfold accounted; simpl. rewrite H1, H2, H3; simpl. rewrite length_drop in H4.
  repeat split; try lia.
  - intros Hin. apply elem_of_skippedFrom in Hin as (j & l & why & Hl & Hrow & ->).
    rewrite lookup_drop in Hl. exists (1 + j)%nat, l, why. repeat split; auto; lia.
  - intros (i & l & why & Hi & Hl & Hrow & ->). apply elem_of_skippedFrom.
    exists (i - 1)%nat, l, why. rewrite lookup_drop.
    replace (1 + (i - 1))%nat with i by lia. repeat split; auto; f_equal; lia.
Qed.

Lemma revolut_row_skip (c : Revolut.Columns) (l why : string) :
  Revolut.row c l = Skip why
  <-> skipReason 3 (fun fields => Revolut.numericColumn fields (Revolut.amountIdx c)) l why.
Proof.
  unfold Revolut.row, skipReason.
  destruct (trim l) as [|ch rest] eqn:Htrim; simpl isEmpty; cbv iota.
  - split.
    + intros H. injection H as <-. left. auto.
    + intros [[_ ->] | [[H _] | [H _]]]; [reflexivity| |]; contradiction.
  - destruct (Nat.ltb_spec (List.length (parseCSVLine (String ch rest))) 3) as [Hlt|Hge].
    + split.
      * intros H. injection H as <-. right. left. repeat split; [discriminate|exact Hlt].
      * intros [[H _] | [(_ & _ & ->) | (_ & H & _)]]; [discriminate|reflexivity|lia].
    + destruct (isNaN (Revolut.numericColumn (parseCSVLine (String ch rest))
                                             (Revolut.amountIdx c))) eqn:Hnan.
      * split.
        -- intros H. injection H as <-. right. right. repeat split; [discriminate|exact Hge].
        -- intros [[H _] | [(_ & H & _) | (_ & _ & _ & ->)]]; [discriminate|lia|reflexivity].
      * split; [discriminate|].
        intros [[H _] | [(_ & H & _) | (_ & _ & H & _)]]; [discriminate|lia|discriminate].
Qed.

Lemma aib_row_skip (c : Aib.Columns) (l why : string) :
  Aib.row c l = Skip why <-> skipReason 2 (Aib.rowAmount c) l why.
Proof.
  unfold Aib.row, skipReason.
  destruct (trim l) as [|ch rest] eqn:Htrim; simpl isEmpty; cbv iota.
  - split.
    + intros H. injection H as <-. left. auto.
    + intros [[_ ->] | [[H _] | [H _]]]; [reflexivity| |]; contradiction.
  - destruct (Nat.ltb_spec (List.length (parseCSVLine (String ch rest))) 2) as [Hlt|Hge].
    + split.
      * intros H. injection H as <-. right. left. repeat split; [discriminate|exact Hlt].
      * intros [[H _] | [(_ & _ & ->) | (_ & H & _)]]; [discriminate|reflexivity|lia].
    + destruct (isNaN (Aib.rowAmount c (parseCSVLine (String ch rest)))) eqn:Hnan.
      * split.
        -- intros H. injection H as <-. right. right. repeat split; [discriminate|exact Hge].
        -- intros [[H _] | [(_ & H & _) | (_ & _ & _ & ->)]]; [discriminate|lia|reflexivity].
      * split; [discriminate|].
        intros [[H _] | [(_ & H & _) | (_ & _ & H & _)]]; [discriminate|lia|discriminate].
Qed.

(** C8.  Whenever [parseRevolutCSV] or [parseAibCSV] returns, [totalRows]
    is the number of returned records plus [skipped], [skippedDetails] has
    [skipped] entries, and [totalRows] is the number of lines after the
    header.  The entries are, in order, those of the skipped rows: the row
    at index [i] of the lines (the header has index 0 and line number 1)
    is entered with line number [i + 1].  A row is skipped with reason
    "Empty line" when it is blank, "Not enough columns" when it has fewer
    than 3 (Revolut) or 2 (AIB) fields, "Invalid amount" when its amount
    is not a number, and for no other reason: the reason "Parse error" of
    the [catch] clauses is never entered. *)
Theorem parsers_skip_accounting (csvContent : string) :
  let lines := linesOf csvContent in
  (forall r : RevolutParseResult,
      parseRevolutCSV csvContent = Return r ->
      accounted (Revolut.row (Revolut.columns (hd "" lines))) lines r)
  /\ (forall r : AibParseResult,
        parseAibCSV csvContent = Return r ->
        accounted (Aib.row (Aib.columns (hd "" lines))) lines r)
  /\ (forall (c : Revolut.Columns) (l why : string),
        Revolut.row c l = Skip why
        <-> skipReason 3 (fun fields => Revolut.numericColumn fields (Revolut.amountIdx c))
                       l why)
  /\ (forall (c : Aib.Columns) (l why : string),
        Aib.row c l = Skip why <-> skipReason 2 (Aib.rowAmount c) l why)
  /\ (forall (c : Revolut.Columns) (l : string), Revolut.row c l <> Skip "Parse error")
  /\ (forall (c : Aib.Columns) (l : string), Aib.row c l <> Skip "Parse error").
Proof.
  intros lines. split; [|split; [|split; [|split; [|split]]]].
  - intros r. unfold parseRevolutCSV. fold lines.
    destruct (List.length lines <? 2)%nat; [discriminate|].
    destruct (Revolut.amountIdx (Revolut.columns (hd "" lines)) =? -1); [discriminate|].
    intros H. injection H as <-. apply rowLoop_accounted.
  - intros r. unfold parseAibCSV. fold lines.
    destruct (List.length lines <? 2)%nat; [discriminate|].
    destruct ((Aib.dateIdx (Aib.columns (hd "" lines)) =? -1)
              || (Aib.amountIdx (Aib.columns (hd "" lines)) =? -1)
                 && (Aib.debitIdx (Aib.columns (hd "" lines)) =? -1)
                 && (Aib.creditIdx (Aib.columns (hd "" lines)) =? -1)); [discriminate|].
    intros H. injection H as <-. apply rowLoop_accounted.
  - apply revolut_row_skip.
  - apply aib_row_skip.
  - intros c l H. apply revolut_row_skip in H.
    destruct H as [[_ H] | [(_ & _ & H) | (_ & _ & _ & H)]]; discriminate.
  - intros c l H. apply aib_row_skip in H.
    destruct H as [[_ H] | [(_ & _ & H) | (_ & _ & _ & H)]]; discriminate.
Qed.

Lemma parsers_skip_accounting_witness :
  exists r : RevolutParseResult,
    parseRevolutCSV revolutSkipsFile = Return r
    /\ totalRows r = 4%nat /\ List.length (transactions r) = 1%nat /\ skipped r = 3%nat
    /\ skippedDetails r
       = [{| line := 3; reason := "Not enough columns" |};
          {| line := 4; reason := "Empty line" |};
          {| line := 5; reason := "Invalid amount" |}].
Proof.
  destruct (parseRevolutCSV revolutSkipsFile) as [message|r] eqn:Hparse;
    [vm_compute in Hparse; discriminate|].
  exists r. split; [reflexivity|].
  destruct (proj1 (parsers_skip_accounting revolutSkipsFile) r Hparse)
    as (Htotal & Hlen & Hrows & Htx & Hskips & _).
  assert (skippedDetails r
          = [{| line := 3; reason := "Not enough columns" |};
             {| line := 4; reason := "Empty line" |};
             {| line := 5; reason := "Invalid amount" |}]) as Hd.
  { rewrite Hskips. vm_compute. reflexivity. }
  rewrite Hd in Hlen. simpl in Hlen.
  assert (totalRows r = 4%nat) as Ht by (rewrite Hrows; vm_compute; reflexivity).
  repeat split; auto; lia.
Defined.

End accounting.

(** ** Deduplication *)

Section deduplication.
Import preview.




Lemma dedupe_fold (existing : list Doc) (transactions acc : list Transaction) :
  fold_left (fun (deduped : list Transaction) t =>
               if decide (makeKeyFromTransaction t ∈ existingKeys existing)
               then deduped else deduped ++ [t])
            transactions acc
  = acc ++ filter (fun t => makeKeyFromTransaction t ∉ existingKeys existing) transactions.
Proof.
  revert acc. induction transactions as [|t transactions IH]; intros acc; simpl.
  - rewrite app_nil_r. reflexivity.
  - rewrite IH, filter_cons.
    destruct (decide (makeKeyFromTransaction t ∈ existingKeys existing)) as [Hin|Hnotin].
    + destruct (decide (makeKeyFromTransaction t ∉ existingKeys existing)) as [H|_];
        [contradiction|reflexivity].
    + destruct (decide (makeKeyFromTransaction t ∉ existingKeys existing)) as [_|H];
        [|contradiction]. rewrite <- app_assoc. reflexivity.
Qed.

Lemma dedupe_filter (existing : list Doc) (transactions : list Transaction) :
  dedupe existing transactions
  = filter (fun t => makeKeyFromTransaction t ∉ existingKeys existing) transactions.
Proof. unfold dedupe. rewrite dedupe_fold. reflexivity. Qed.





End deduplication.

(** ** The built-ins on small inputs *)

Section builtins.
Import csvParser.

Example parseCSVLine_quoted :
  parseCSVLine ("a," ++ String dquote ("b" ++ String dquote (String dquote ("c" ++ String dquote ""))))%string
  = ["a"; ("b" ++ String dquote "c")%string].
Proof. reflexivity. Qed.

Example parseCSVLine_empty : parseCSVLine "" = [""].
Proof. reflexivity. Qed.

Example parseFloat_examples :
  parseFloat "-12.50" = ofQ (-25 # 2)
  /\ parseFloat "  7 EUR" = ofZ 7
  /\ parseFloat "1e3" = ofZ 1000
  /\ parseFloat ".5" = ofQ (1 # 2)
  /\ parseFloat "abc" = NaN
  /\ parseFloat "" = NaN
  /\ parseFloat "-Infinity" = Infinity true.
Proof.
  repeat split; vm_compute;
    first [reflexivity | f_equal; apply Qc_is_canon; reflexivity].
Qed.

Example trim_examples :
  trim "  a b  " = "a b" /\ trim "   " = "" /\ linesOf ("a" ++ String "013" (String "010" "b"))%string = ["a"; "b"].
Proof. repeat split; reflexivity. Qed.

Example normalizeText_example : preview.normalizeText "  Coffee   SHOP " = "coffee shop".
Proof. reflexivity. Qed.

Example cleanDisplayName_examples :
  cleanDisplayName "TST- Cafe **1234 " = "Cafe"
  /\ cleanDisplayName "D/D Gym***" = "Gym"
  /\ cleanDisplayName "vdc-Shop" = "Shop"
  /\ cleanDisplayName "**1234" = "".
Proof. repeat split; reflexivity. Qed.

End builtins.

(** * Further properties of the modelled code *)

(** ** The greedy routines: what is matched, and what is left *)

Section greedy_more.
Import csvParser.

Variable considered : ParsedTransaction -> bool.
Variable test : ParsedTransaction -> ParsedTransaction -> bool.

Lemma recordMatch_pairs (i e : nat) (st : MatchState) (p : nat * nat) :
  p ∈ statePairs (recordMatch i e st) <-> p ∈ statePairs st \/ p = (i, e).
Proof.
  unfold recordMatch; simpl. rewrite elem_of_app, list_elem_of_singleton. reflexivity.
Qed.

Lemma greedyState_sound (news existing : list ParsedTransaction) (i e : nat) :
  (i, e) ∈ statePairs (greedyState considered test news existing) ->
  exists n x, news !! i = Some n /\ existing !! e = Some x
              /\ considered n = true /\ test n x = true.
Proof.
  induction news as [|n news IH] using rev_ind.
  - intros H. apply elem_of_nil in H. contradiction.
  - destruct (greedyState_step considered test news existing n) as [Hskip Hstep].
    cbv zeta in Hskip, Hstep. destruct (considered n) eqn:Hc.
    + destruct (Hstep eq_refl) as [[e0 [Hfirst ->]] | [_ ->]].
      * intros Hin. apply recordMatch_pairs in Hin as [Hin|Heq].
        -- destruct (IH Hin) as (m & x & Hm & Hx & H1 & H2). exists m, x.
           rewrite lookup_app_l by (eapply lookup_lt_Some; exact Hm). auto.
        -- injection Heq as -> ->. destruct Hfirst as ([x [Hx Ht]] & _).
           exists n, x. rewrite lookup_app_r by lia.
           replace (List.length news - List.length news)%nat with 0%nat by lia. auto.
      * intros Hin. destruct (IH Hin) as (m & x & Hm & Hx & H1 & H2). exists m, x.
        rewrite lookup_app_l by (eapply lookup_lt_Some; exact Hm). auto.
    + rewrite (Hskip eq_refl). intros Hin.
      destruct (IH Hin) as (m & x & Hm & Hx & H1 & H2). exists m, x.
      rewrite lookup_app_l by (eapply lookup_lt_Some; exact Hm). auto.
Qed.

Lemma greedyState_maximal (news existing : list ParsedTransaction)
      (i : nat) (n : ParsedTransaction) (e : nat) (x : ParsedTransaction) :
  let st := greedyState considered test news existing in
  news !! i = Some n -> considered n = true -> i ∉ newTransferIndices st ->
  existing !! e = Some x -> test n x = true ->
  e ∈ existingTransferIndices st.
Proof.
  cbv zeta. revert i n. induction news as [|m news IH] using rev_ind; intros i n Hn.
  - rewrite lookup_nil in Hn. discriminate.
  - destruct (greedyState_step considered test news existing m) as [Hskip Hstep].
    cbv zeta in Hskip, Hstep.
    intros Hc Hfree Hx Ht.
    destruct (decide (i < List.length news)%nat) as [Hlt|Hge].
    + rewrite lookup_app_l in Hn by exact Hlt.
      assert (i ∉ newTransferIndices (greedyState considered test news existing)
              -> e ∈ existingTransferIndices (greedyState considered test news existing))
        as Hold by (intros H; eapply IH; eauto).
      destruct (considered m) eqn:Hcm.
      * destruct (Hstep eq_refl) as [[e0 [_ Heq]] | [_ Heq]]; rewrite Heq in *.
        -- simpl in *. apply elem_of_union. right. apply Hold.
           intros H. apply Hfree. apply elem_of_union. right. exact H.
        -- apply Hold, Hfree.
      * rewrite (Hskip eq_refl) in *. apply Hold, Hfree.
    + assert (i = List.length news) as ->.
      { apply lookup_lt_Some in Hn. rewrite length_app in Hn. simpl in Hn. lia. }
      rewrite lookup_app_r in Hn by lia.
      replace (List.length news - List.length news)%nat with 0%nat in Hn by lia.
      simpl in Hn. injection Hn as ->.
      destruct (Hstep Hc) as [[e0 [_ Heq]] | [Hnone Heq]]; rewrite Heq in *.
      * exfalso. apply Hfree. simpl. apply elem_of_union. left.
        apply elem_of_singleton. reflexivity.
      * exact (Hnone e x Hx Ht).
Qed.

Lemma NoDup_bounded_length (l : list nat) (n : nat) :
  NoDup l -> (forall x, x ∈ l -> (x < n)%nat) -> (List.length l <= n)%nat.
Proof.
  intros Hnd Hlt.
  assert (l ⊆+ seq 0 n) as Hsub.
  { apply NoDup_submseteq; [exact Hnd|]. intros x Hx. apply elem_of_seq.
    specialize (Hlt x Hx). lia. }
  apply submseteq_length in Hsub. rewrite length_seq in Hsub. exact Hsub.
Qed.

Lemma greedyState_sizes (news existing : list ParsedTransaction) :
  let st := greedyState considered test news existing in
  size (newTransferIndices st) = List.length (statePairs st)
  /\ size (existingTransferIndices st) = List.length (statePairs st)
  /\ (List.length (statePairs st) <= List.length news)%nat
  /\ (List.length (statePairs st) <= List.length existing)%nat.
Proof.
  cbv zeta.
  destruct (greedyState_invariant considered test news existing)
    as (_ & Hn & He & Hd1 & Hd2 & Hlt).
  rewrite Hn, He, !size_list_to_set by assumption. rewrite !length_map.
  split; [reflexivity|]. split; [reflexivity|]. split.
  - rewrite <- (length_map fst). apply NoDup_bounded_length; [exact Hd1|].
    intros x Hx. apply list_elem_of_fmap in Hx as [p [-> Hp]]. apply Hlt, Hp.
  - rewrite <- (length_map snd). apply NoDup_bounded_length; [exact Hd2|].
    intros x Hx. apply list_elem_of_fmap in Hx as [[i e] [-> Hp]]. simpl.
    destruct (greedyState_sound news existing i e Hp) as (n & y & _ & Hy & _).
    eapply lookup_lt_Some. exact Hy.
Qed.

End greedy_more.

Section greedy_extras.
Import csvParser.



(** X2.  Every pair returned by [detectCrossBankTransfers] joins a new
    and an existing transaction that meet its criteria (opposite kinds,
    the same absolute amount, the same currency, at most four days
    apart); the two index sets have as many elements as there are pairs,
    and there are no more pairs than new, or than existing,
    transactions. *)
Theorem detectCrossBankTransfers_sound (news existing : list ParsedTransaction)
        (newSource existingSource : Source) :
  let r := detectCrossBankTransfers news existing newSource existingSource in
  (forall i e : nat,
      (i, e) ∈ matchedPairs r ->
      exists n x, news !! i = Some n /\ existing !! e = Some x /\ crossBankEligible n x)
  /\ size (newIndices r) = List.length (matchedPairs r)
  /\ size (existingIndices r) = List.length (matchedPairs r)
  /\ (List.length (matchedPairs r) <= List.length news)%nat
  /\ (List.length (matchedPairs r) <= List.length existing)%nat.
Proof.
  cbv zeta. rewrite detectCrossBankTransfers_greedy. unfold resultOf; simpl. split.
  - intros i e Hin.
    destruct (greedyState_sound (fun _ => true) crossBankCriteria news existing i e Hin)
      as (n & x & Hn & Hx & _ & Ht).
    exists n, x. split; [exact Hn|]. split; [exact Hx|].
    apply crossBankCriteria_eligible, Ht.
  - apply (greedyState_sizes (fun _ => true) crossBankCriteria news existing).
Qed.

Lemma detectCrossBankTransfers_sound_witness :
  exists n x,
    [exampleTx "To AIB" 5000 expense march1 "EUR"] !! 0%nat = Some n
    /\ [exampleTx "From Revolut" 5000 income (march1 + 4 * day) "EUR"] !! 0%nat = Some x
    /\ crossBankEligible n x.
Proof.
  apply (proj1 (detectCrossBankTransfers_sound
                  [exampleTx "To AIB" 5000 expense march1 "EUR"]
                  [exampleTx "From Revolut" 5000 income (march1 + 4 * day) "EUR"]
                  revolut_import aib_import)
               0%nat 0%nat).
  vm_compute. left.
Defined.

(** X3.  Nothing that could still be matched is left over: when a new
    transaction (for the AIB routine, one with the marker) ends up
    unmatched, every existing transaction eligible for it has been
    consumed by another pair. *)
Theorem greedy_matching_maximal (news existing : list ParsedTransaction)
        (i : nat) (n : ParsedTransaction) (e : nat) (x : ParsedTransaction)
        (newSource existingSource : Source) :
  news !! i = Some n -> existing !! e = Some x ->
  (includes (title n) marker = true -> aibEligible n x ->
   i ∉ newIndices (detectAibTransfers news existing) ->
   e ∈ existingIndices (detectAibTransfers news existing))
  /\ (crossBankEligible n x ->
      i ∉ newIndices (detectCrossBankTransfers news existing newSource existingSource) ->
      e ∈ existingIndices
            (detectCrossBankTransfers news existing newSource existingSource)).
Proof.
  intros Hn Hx. split.
  - intros Hm Helig. rewrite detectAibTransfers_greedy. unfold resultOf; simpl.
    intros Hfree.
    apply (greedyState_maximal hasMarker aibTest news existing i n e x Hn Hm Hfree Hx).
    apply aibTest_eligible, Helig.
  - intros Helig. rewrite detectCrossBankTransfers_greedy. unfold resultOf; simpl.
    intros Hfree.
    apply (greedyState_maximal (fun _ => true) crossBankCriteria news existing
                               i n e x Hn eq_refl Hfree Hx).
    apply crossBankCriteria_eligible, Helig.
Qed.

Lemma greedy_matching_maximal_witness :
  1%nat ∈ existingIndices
           (detectCrossBankTransfers
              [exampleTx "A" 5000 expense march1 "EUR";
               exampleTx "B" 5000 expense (march1 + day) "EUR"]
              [exampleTx "old" 5000 expense march1 "EUR";
               exampleTx "C" 5000 income march1 "EUR"]
              revolut_import aib_import).
Proof.
  refine (proj2 (greedy_matching_maximal
                   [exampleTx "A" 5000 expense march1 "EUR";
                    exampleTx "B" 5000 expense (march1 + day) "EUR"]
                   [exampleTx "old" 5000 expense march1 "EUR";
                    exampleTx "C" 5000 income march1 "EUR"]
                   1%nat (exampleTx "B" 5000 expense (march1 + day) "EUR")
                   1%nat (exampleTx "C" 5000 income march1 "EUR")
                   revolut_import aib_import _ _) _ _).
  - reflexivity.
  - reflexivity.
  - repeat split; try (vm_compute; reflexivity); vm_compute; discriminate.
  - vm_compute. intros H. discriminate.
Defined.

End greedy_extras.

(** ** Marking transfers *)

Section marking.
Import csvParser.

Lemma potentialMatches_keys_from (l : list ParsedTransaction) (g : nat -> nat)
      (m : list (GroupKey * list nat)) :
  fold_left (fun m '(index, tx) => pushIndex (groupKey tx) index m)
            (imap (fun i x => (g i, x)) l) m
  = fold_left (fun m '(index, key) => pushIndex key index m)
              (imap (fun i k => (g i, k)) (List.map groupKey l)) m.
Proof.
  revert g m. induction l as [|x l IH]; intros g m; simpl; [reflexivity|].
  apply (IH (fun i => g (S i))).
Qed.

Lemma groupKey_of_view (tx tx' : ParsedTransaction) :
  detectionView tx = detectionView tx' -> groupKey tx = groupKey tx'.
Proof.
  unfold detectionView, groupKey, dateKey. intros H. injection H as H1 H2 H3 H4.
  rewrite H1, H2, H3. reflexivity.
Qed.

Lemma isTransferPair_of_view (a a' b b' : ParsedTransaction) :
  detectionView a = detectionView a' -> detectionView b = detectionView b' ->
  isTransferPair a b = isTransferPair a' b'.
Proof.
  unfold detectionView, isTransferPair. intros Ha Hb.
  injection Ha as A1 A2 A3 A4. injection Hb as B1 B2 B3 B4.
  rewrite A1, A4, B1, B4. reflexivity.
Qed.

Variables l l' : list ParsedTransaction.
Hypothesis same_view : List.map detectionView l = List.map detectionView l'.

Lemma same_view_keys : List.map groupKey l = List.map groupKey l'.
Proof.
  clear -same_view. revert l' same_view.
  induction l as [|x t IH]; intros [|x' t'] H; simpl in *; try discriminate; [reflexivity|].
  pose proof (f_equal (hd (detectionView x)) H) as Hx.
  pose proof (f_equal (@tl _) H) as Ht. simpl in Hx, Ht.
  f_equal; [apply groupKey_of_view, Hx|apply IH, Ht].
Qed.

Lemma same_view_lookup (i : nat) :
  match l !! i, l' !! i with
  | Some tx, Some tx' => detectionView tx = detectionView tx'
  | None, None => True
  | _, _ => False
  end.
Proof.
  pose proof (f_equal (fun k => k !! i) same_view) as H. simpl in H.
  change (List.map detectionView l) with (detectionView <$> l) in H.
  change (List.map detectionView l') with (detectionView <$> l') in H.
  rewrite !list_lookup_fmap in H.
  destruct (l !! i), (l' !! i); simpl in H; try discriminate; [|exact I].
  exact (f_equal (fun o => default (detectionView p) o) H).
Qed.

Lemma same_view_visitPair (a b : nat) (st : PairsResult) :
  visitPair l a b st = visitPair l' a b st.
Proof.
  unfold visitPair. pose proof (same_view_lookup a) as Ha.
  pose proof (same_view_lookup b) as Hb.
  destruct (l !! a), (l' !! a); try contradiction; [|reflexivity].
  destruct (l !! b), (l' !! b); try contradiction; [|reflexivity].
  rewrite (isTransferPair_of_view _ _ _ _ Ha Hb). reflexivity.
Qed.

Lemma same_view_innerLoop (a : nat) (later : list nat) (st : PairsResult) :
  innerLoop l a later st = innerLoop l' a later st.
Proof.
  revert st. induction later as [|b later IH]; intros st; simpl; [reflexivity|].
  rewrite same_view_visitPair. apply IH.
Qed.

Lemma same_view_outerLoop (group : list nat) (st : PairsResult) :
  outerLoop l group st = outerLoop l' group st.
Proof.
  revert st. induction group as [|a later IH]; intros st; simpl; [reflexivity|].
  rewrite same_view_innerLoop. apply IH.
Qed.

Lemma same_view_detect : detectTransferPairs l = detectTransferPairs l'.
Proof.
  unfold detectTransferPairs, potentialMatches.
  rewrite (potentialMatches_keys_from l (fun i => i)),
          (potentialMatches_keys_from l' (fun i => i)), same_view_keys.
  apply fold_left_pointwise. intros st [k group].
  unfold visitGroup. destruct (List.length group <? 2)%nat; [reflexivity|].
  apply same_view_outerLoop.
Qed.

End marking.

Section marking_theorems.
Import csvParser.


Lemma markTransfers_lookup (transferCategoryId : string)
      (transactions : list ParsedTransaction) (i : nat) :
  markTransfers transferCategoryId transactions !! i
  = (fun tx => if decide (i ∈ indices (detectTransferPairs transactions))
               then asTransfer transferCategoryId tx else tx)
      <$> transactions !! i.
Proof.
  unfold markTransfers.
  destruct (Nat.eqb_spec (size (indices (detectTransferPairs transactions))) 0)
    as [Hempty|Hsome].
  - apply size_empty_inv in Hempty. apply leibniz_equiv in Hempty.
    destruct (transactions !! i) as [tx|]; simpl; [|reflexivity].
    destruct (decide (i ∈ indices (detectTransferPairs transactions))) as [Hin|_];
      [|reflexivity].
    rewrite Hempty in Hin. apply elem_of_empty in Hin. contradiction.
  - apply list_lookup_imap.
Qed.

Lemma markTransfers_view (transferCategoryId : string)
      (transactions : list ParsedTransaction) :
  List.map detectionView (markTransfers transferCategoryId transactions)
  = List.map detectionView transactions.
Proof.
  apply list_eq. intros i.
  change (List.map detectionView ?k) with (detectionView <$> k).
  rewrite !list_lookup_fmap, markTransfers_lookup.
  destruct (transactions !! i) as [tx|]; simpl; [|reflexivity].
  destruct (decide (i ∈ indices (detectTransferPairs transactions))); reflexivity.
Qed.



(** X5.  Transfer detection reads only the date, the amount, the currency and
    the kind, all of which marking leaves alone; so marking does not change
    what is detected, and marking a marked list changes nothing. *)
Theorem markTransfers_idempotent (transferCategoryId : string)
        (transactions : list ParsedTransaction) :
  detectTransferPairs (markTransfers transferCategoryId transactions)
  = detectTransferPairs transactions
  /\ markTransfers transferCategoryId (markTransfers transferCategoryId transactions)
     = markTransfers transferCategoryId transactions.
Proof.
  assert (detectTransferPairs (markTransfers transferCategoryId transactions)
          = detectTransferPairs transactions) as Hsame.
  { apply same_view_detect, markTransfers_view. }
  split; [exact Hsame|]. apply list_eq. intros i.
  rewrite (markTransfers_lookup _ (markTransfers transferCategoryId transactions)), Hsame.
  rewrite markTransfers_lookup.
  destruct (transactions !! i) as [tx|]; simpl; [|reflexivity].
  destruct (decide (i ∈ indices (detectTransferPairs transactions))); reflexivity.
Qed.

(** X6.  Two lists that agree, position by position, on date, amount, currency
    and kind get the same transfer pairs, whatever their titles,
    categories and flags. *)
Theorem detectTransferPairs_reads_four_fields (l l' : list ParsedTransaction) :
  List.map detectionView l = List.map detectionView l' ->
  detectTransferPairs l = detectTransferPairs l'.
Proof. apply same_view_detect. Qed.

Lemma detectTransferPairs_reads_four_fields_witness :
  detectTransferPairs [exampleTx "To savings" 5000 expense march1 "EUR";
                       exampleTx "From current" 5000 income march1 "EUR"]
  = detectTransferPairs [exampleTx "x" 5000 expense march1 "EUR";
                         exampleTx "y" 5000 income march1 "EUR"].
Proof.
  apply (detectTransferPairs_reads_four_fields
           [exampleTx "To savings" 5000 expense march1 "EUR";
            exampleTx "From current" 5000 income march1 "EUR"]
           [exampleTx "x" 5000 expense march1 "EUR";
            exampleTx "y" 5000 income march1 "EUR"]).
  reflexivity.
Defined.

End marking_theorems.

(** ** The tokenizer *)

Section tokenizer.
Import csvParser.
Local Open Scope string_scope.

Lemma append_cons (c : ascii) (a b : string) : String c a ++ b = String c (a ++ b).
Proof. reflexivity. Qed.

Lemma append_nil (b : string) : "" ++ b = b.
Proof. reflexivity. Qed.

Lemma append_assoc (a b c : string) : (a ++ b) ++ c = a ++ (b ++ c).
Proof.
  induction a as [|x a IH]; [reflexivity|]. rewrite !append_cons, IH. reflexivity.
Qed.

Lemma append_empty_r (a : string) : a ++ "" = a.
Proof.
  induction a as [|x a IH]; [reflexivity|]. rewrite append_cons, IH. reflexivity.
Qed.

Lemma parseCSVLineFrom_plain (line current : string) (result : list string) :
  lacks dquote line = true ->
  parseCSVLineFrom line current false result
  = (result ++ match split "," line with
               | piece :: pieces => String.append current piece :: pieces
               | [] => [current]
               end)%list.
Proof.
  revert current result. induction line as [|c line IH]; intros current result Hq.
  - simpl. rewrite append_empty_r. reflexivity.
  - simpl in Hq. apply andb_true_iff in Hq as [Hc Hq].
    apply negb_true_iff in Hc. simpl. rewrite Hc.
    destruct (Ascii.eqb_spec c ",") as [->|Hne]; simpl.
    + rewrite (IH "" _ Hq), append_empty_r, <- app_assoc.
      destruct (split "," line) as [|piece pieces] eqn:Hs;
        [exfalso; exact (split_nonempty _ _ Hs)|]. reflexivity.
    + rewrite (IH _ _ Hq).
      destruct (split "," line) as [|piece pieces] eqn:Hs;
        [exfalso; exact (split_nonempty _ _ Hs)|].
      rewrite append_assoc, append_cons, append_nil. reflexivity.
Qed.

Lemma parseCSVLineFrom_open (body : string) (result : list string) :
  parseCSVLineFrom (String dquote body) "" false result
  = parseCSVLineFrom body "" true result.
Proof. simpl. destruct body; reflexivity. Qed.

Lemma parseCSVLineFrom_quoted (field rest current : string) (result : list string) :
  startsWith rest (String dquote "") = false ->
  parseCSVLineFrom (escapeQuotes field ++ String dquote rest) current true result
  = parseCSVLineFrom rest (current ++ field) false result.
Proof.
  intros Hrest. revert current.
  induction field as [|c field IH]; intros current.
  - simpl escapeQuotes. rewrite append_nil, append_empty_r.
    destruct rest as [|r rest]; [reflexivity|].
    destruct (Ascii.eqb_spec r dquote) as [->|Hne].
    + exfalso. simpl in Hrest. destruct rest; discriminate.
    + apply Ascii.eqb_neq in Hne. simpl. rewrite Hne. reflexivity.
  - simpl escapeQuotes. destruct (Ascii.eqb_spec c dquote) as [->|Hne].
    + rewrite !append_cons. simpl. rewrite IH, append_assoc. reflexivity.
    + apply Ascii.eqb_neq in Hne. rewrite append_cons. simpl. rewrite Hne.
      rewrite andb_false_r, IH, append_assoc. reflexivity.
Qed.

Lemma parseCSVLineFrom_joinQuoted (first : string) (others result : list string) :
  parseCSVLineFrom (joinQuoted first others) "" false result
  = (result ++ first :: others)%list.
Proof.
  revert first result. induction others as [|next others IH]; intros first result.
  - simpl joinQuoted. unfold quoteField.
    rewrite parseCSVLineFrom_open, parseCSVLineFrom_quoted by reflexivity.
    reflexivity.
  - simpl joinQuoted. unfold quoteField at 1.
    rewrite append_cons, append_assoc, append_cons, append_nil.
    rewrite parseCSVLineFrom_open, parseCSVLineFrom_quoted by reflexivity.
    rewrite append_nil. simpl. rewrite IH, <- app_assoc. reflexivity.
Qed.

(** X7.  [parseCSVLine] on a line without double quotes is the split at the
    commas; in particular it returns as many fields as there are commas,
    plus one. *)
Theorem parseCSVLine_without_quotes (line : string) :
  lacks dquote line = true -> parseCSVLine line = split "," line.
Proof.
  intros Hq. unfold parseCSVLine. rewrite (parseCSVLineFrom_plain _ _ _ Hq). simpl.
  destruct (split "," line) as [|piece pieces] eqn:Hs;
    [exfalso; exact (split_nonempty _ _ Hs)|]. reflexivity.
Qed.

Lemma parseCSVLine_without_quotes_witness :
  parseCSVLine "05/01/2024,Shop,,12.50" = ["05/01/2024"; "Shop"; ""; "12.50"].
Proof.
  rewrite (parseCSVLine_without_quotes "05/01/2024,Shop,,12.50"); reflexivity.
Defined.

(** X8.  Quoting round trip: fields of any content (commas, quotes, spaces),
    each written between double quotes with its own quotes doubled and
    joined by commas, are read back unchanged by [parseCSVLine]. *)
Theorem parseCSVLine_reads_quoted (first : string) (others : list string) :
  parseCSVLine (joinQuoted first others) = first :: others.
Proof. unfold parseCSVLine. rewrite parseCSVLineFrom_joinQuoted. reflexivity. Qed.

End tokenizer.

(** ** Trimming *)

Section trimming.

Lemma trimStart_fixed (s : string) :
  match s with String c _ => isWhiteSpace c = false | EmptyString => True end ->
  trimStart s = s.
Proof. destruct s as [|c s]; simpl; [reflexivity|]. intros ->. reflexivity. Qed.

Lemma trimStart_head (s : string) :
  match trimStart s with String c _ => isWhiteSpace c = false | EmptyString => True end.
Proof.
  induction s as [|c s IH]; simpl; [exact I|].
  destruct (isWhiteSpace c) eqn:Hc; [exact IH|]. exact Hc.
Qed.

Lemma trimEnd_head (s : string) :
  match s with String c _ => isWhiteSpace c = false | EmptyString => True end ->
  match trimEnd s with String c _ => isWhiteSpace c = false | EmptyString => True end.
Proof.
  destruct s as [|c s]; simpl; [auto|]. intros Hc.
  destruct (trimEnd s); [rewrite Hc|]; exact Hc.
Qed.

Lemma trimEnd_cons (c : ascii) (s : string) :
  trimEnd (String c s)
  = match trimEnd s with
    | EmptyString => if isWhiteSpace c then EmptyString else String c EmptyString
    | r => String c r
    end.
Proof. reflexivity. Qed.

Lemma trimEnd_idempotent (s : string) : trimEnd (trimEnd s) = trimEnd s.
Proof.
  induction s as [|c s IH]; [reflexivity|]. rewrite trimEnd_cons.
  destruct (trimEnd s) as [|c' r] eqn:Hr.
  - destruct (isWhiteSpace c) eqn:Hc; [reflexivity|].
    rewrite trimEnd_cons. simpl. rewrite Hc. reflexivity.
  - rewrite trimEnd_cons, IH. reflexivity.
Qed.

Lemma trim_idempotent (s : string) : trim (trim s) = trim s.
Proof.
  unfold trim.
  rewrite (trimStart_fixed (trimEnd (trimStart s)))
    by (apply trimEnd_head, trimStart_head).
  apply trimEnd_idempotent.
Qed.

End trimming.

(** ** Parsed records *)

Section parsed_records.
Import csvParser.










End parsed_records.

(** ** Line endings *)

Section line_endings.
Import csvParser.

Lemma split_nonempty_cons (sep : ascii) (s : string) :
  exists piece pieces, split sep s = piece :: pieces.
Proof.
  destruct s as [|c s]; simpl; [eauto|].
  destruct (Ascii.eqb c sep); [eauto|].
  destruct (split sep s); eauto.
Qed.

Lemma split_append_separator (sep : ascii) (s : string) :
  split sep (String.append s (String sep "")) = split sep s ++ [""].
Proof.
  induction s as [|c s IH].
  - rewrite append_nil. simpl. rewrite Ascii.eqb_refl. reflexivity.
  - rewrite append_cons. simpl. destruct (Ascii.eqb c sep); [rewrite IH; reflexivity|].
    rewrite IH. destruct (split_nonempty_cons sep s) as (piece & pieces & ->).
    reflexivity.
Qed.

Lemma linesOf_append_newline (csvContent : string) :
  linesOf (String.append csvContent newline) = linesOf csvContent ++ [""].
Proof.
  unfold linesOf, newline. rewrite split_append_separator, map_app. reflexivity.
Qed.

Lemma rowLoop_app {T : Type} (row : string -> RowOutcome T) (a b : list string)
      (i : nat) (st : RowLoop T) :
  rowLoop row (a ++ b) i st = rowLoop row b (i + List.length a) (rowLoop row a i st).
Proof.
  revert i st. induction a as [|l a IH]; intros i st; simpl.
  - f_equal. lia.
  - rewrite IH. f_equal. lia.
Qed.

Lemma stripTrailingCR_cons (c : ascii) (s : string) :
  c <> "013"%char -> stripTrailingCR (String c s) = String c (stripTrailingCR s).
Proof.
  intros Hc. destruct s as [|d s]; [|reflexivity].
  simpl. destruct (Ascii.eqb_spec c "013"); [contradiction|reflexivity].
Qed.

Lemma linesOf_toCRLF (csvContent : string) :
  lacks "013" csvContent = true -> linesOf (toCRLF csvContent) = linesOf csvContent.
Proof.
  unfold linesOf. induction csvContent as [|c s IH]; [reflexivity|].
  cbn [lacks toCRLF]. intros H. apply andb_true_iff in H as [Hc Hs].
  apply negb_true_iff in Hc. specialize (IH Hs).
  assert (c <> "013"%char) as Hcr by (intros ->; discriminate).
  destruct (Ascii.eqb_spec c "010") as [->|Hnl].
  - change (split "010" (String "013" (String "010" (toCRLF s))))
      with (String "013" "" :: split "010" (toCRLF s)).
    change (split "010" (String "010" s)) with ("" :: split "010" s).
    cbn [List.map]. rewrite IH. reflexivity.
  - cbn [split]. destruct (Ascii.eqb_spec c "010") as [|_]; [contradiction|].
    destruct (split_nonempty_cons "010" (toCRLF s)) as (p' & ps' & Hp').
    destruct (split_nonempty_cons "010" s) as (p & ps & Hp).
    rewrite Hp' in IH |- *. rewrite Hp in IH |- *. cbn [List.map] in IH |- *.
    injection IH as Hhead Htail.
    rewrite !(stripTrailingCR_cons c) by exact Hcr. rewrite Hhead, Htail. reflexivity.
Qed.

Lemma parsers_read_lines (a b : string) :
  linesOf a = linesOf b ->
  parseRevolutCSV a = parseRevolutCSV b /\ parseAibCSV a = parseAibCSV b.
Proof.
  intros H. unfold parseRevolutCSV, parseAibCSV. rewrite H. split; reflexivity.
Qed.

(** X10.  A file written with Windows line endings parses exactly like the
    same file with Unix line endings: when the text holds no carriage
    return, putting one before every line feed changes the result of
    neither parser (records, skip count, skip details, row total, or the
    error thrown). *)
Theorem parsers_ignore_crlf (csvContent : string) :
  lacks "013" csvContent = true ->
  parseRevolutCSV (toCRLF csvContent) = parseRevolutCSV csvContent
  /\ parseAibCSV (toCRLF csvContent) = parseAibCSV csvContent.
Proof.
  intros H. apply parsers_read_lines, linesOf_toCRLF, H.
Qed.

Lemma parsers_ignore_crlf_witness :
  parseRevolutCSV (toCRLF revolutSkipsFile) = parseRevolutCSV revolutSkipsFile
  /\ parseAibCSV (toCRLF revolutSkipsFile) = parseAibCSV revolutSkipsFile.
Proof.
  apply (parsers_ignore_crlf revolutSkipsFile). vm_compute. reflexivity.
Defined.

Lemma parse_append_newline {T : Type} (row : string -> RowOutcome T) (lines : list string) :
  (2 <= List.length lines)%nat -> row "" = Skip "Empty line" ->
  let st := rowLoop row (drop 1 lines) 1 emptyLoop in
  let st' := rowLoop row (drop 1 (lines ++ [""])) 1 emptyLoop in
  {| transactions := loop_transactions st';
     skipped := loop_skipped st';
     totalRows := Nat.max 0 (List.length (lines ++ [""]) - 1);
     skippedDetails := loop_skippedDetails st' |}
  = withBlankLine {| transactions := loop_transactions st;
                     skipped := loop_skipped st;
                     totalRows := Nat.max 0 (List.length lines - 1);
                     skippedDetails := loop_skippedDetails st |}.
Proof.
  intros Hlen Hrow. destruct lines as [|header rows]; [simpl in Hlen; lia|].
  cbn [drop app]. rewrite !drop_0. rewrite rowLoop_app. cbn [rowLoop].
  rewrite Hrow. unfold withBlankLine, rowStep. cbn [transactions skipped totalRows
    skippedDetails loop_transactions loop_skipped loop_skippedDetails].
  cbn [List.length]. rewrite length_app. cbn [List.length]. f_equal; [lia|].
  do 3 f_equal. lia.
Qed.

(** X11.  A file that ends with a line feed gives the result of the same file
    without it plus one skipped row: the records are the same, the skip
    count and the row total grow by one, and one detail with the reason
    [Empty line] is added for the line after the last. *)
Theorem parsers_trailing_newline (csvContent : string) :
  (forall r : RevolutParseResult,
      parseRevolutCSV csvContent = Return r ->
      parseRevolutCSV (String.append csvContent newline) = Return (withBlankLine r))
  /\ (forall r : AibParseResult,
        parseAibCSV csvContent = Return r ->
        parseAibCSV (String.append csvContent newline) = Return (withBlankLine r)).
Proof.
  split; intros r.
  - unfold parseRevolutCSV. rewrite linesOf_append_newline.
    destruct (Nat.ltb_spec (List.length (linesOf csvContent)) 2) as [|Hlen]; [discriminate|].
    destruct (Nat.ltb_spec (List.length (linesOf csvContent ++ [""])) 2) as [Hlen'|_];
      [rewrite length_app in Hlen'; simpl in Hlen'; lia|].
    assert (hd "" (linesOf csvContent ++ [""]) = hd "" (linesOf csvContent)) as ->.
    { destruct (linesOf csvContent); [simpl in Hlen; lia|reflexivity]. }
    destruct (Revolut.amountIdx (Revolut.columns (hd "" (linesOf csvContent))) =? -1);
      [discriminate|].
    intros H. injection H as <-. f_equal.
    apply parse_append_newline; [exact Hlen|reflexivity].
  - unfold parseAibCSV. rewrite linesOf_append_newline.
    destruct (Nat.ltb_spec (List.length (linesOf csvContent)) 2) as [|Hlen]; [discriminate|].
    destruct (Nat.ltb_spec (List.length (linesOf csvContent ++ [""])) 2) as [Hlen'|_];
      [rewrite length_app in Hlen'; simpl in Hlen'; lia|].
    assert (hd "" (linesOf csvContent ++ [""]) = hd "" (linesOf csvContent)) as ->.
    { destruct (linesOf csvContent); [simpl in Hlen; lia|reflexivity]. }
    destruct ((Aib.dateIdx (Aib.columns (hd "" (linesOf csvContent))) =? -1)
              || (Aib.amountIdx (Aib.columns (hd "" (linesOf csvContent))) =? -1)
                 && (Aib.debitIdx (Aib.columns (hd "" (linesOf csvContent))) =? -1)
                 && (Aib.creditIdx (Aib.columns (hd "" (linesOf csvContent))) =? -1));
      [discriminate|].
    intros H. injection H as <-. f_equal.
    apply parse_append_newline; [exact Hlen|reflexivity].
Qed.

Lemma parsers_trailing_newline_witness :
  exists r : RevolutParseResult,
    parseRevolutCSV revolutSkipsFile = Return r
    /\ parseRevolutCSV (String.append revolutSkipsFile newline) = Return (withBlankLine r).
Proof.
  destruct (parseRevolutCSV revolutSkipsFile) as [message|r] eqn:Hparse;
    [vm_compute in Hparse; discriminate|].
  exists r. split; [reflexivity|].
  apply (proj1 (parsers_trailing_newline revolutSkipsFile) r Hparse).
Defined.

End line_endings.

(** ** Format detection and white space *)

Section detector_more.
Import csvDetector.

Lemma trim_head (s : string) :
  match trim s with String c _ => isWhiteSpace c = false | EmptyString => True end.
Proof. unfold trim. apply trimEnd_head, trimStart_head. Qed.

Lemma nonBlank_head (c : ascii) (piece : string) :
  isWhiteSpace c = false -> nonBlank (String c piece) = true.
Proof.
  intros Hc. unfold nonBlank, trim. cbn [trimStart]. rewrite Hc. rewrite trimEnd_cons.
  destruct (trimEnd piece); [rewrite Hc|]; reflexivity.
Qed.

Lemma first_line_nonBlank (s : string) (c : ascii) (r : string) :
  trim s = String c r ->
  exists piece pieces,
    split "010" (trim s) = String c piece :: pieces
    /\ List.find nonBlank (split "010" (trim s)) = Some (String c piece).
Proof.
  intros H. pose proof (trim_head s) as Hc. rewrite H in Hc |- *.
  assert (Ascii.eqb c "010" = false) as Hnl.
  { destruct (Ascii.eqb_spec c "010") as [->|]; [discriminate Hc|reflexivity]. }
  cbn [split]. rewrite Hnl.
  destruct (split_nonempty_cons "010" r) as (piece & pieces & ->).
  exists piece, pieces. split; [reflexivity|].
  cbn [List.find]. rewrite (nonBlank_head c piece Hc). reflexivity.
Qed.

(** X12.  A text of white space only is of no known format, and white space
    around the content never changes the verdict. *)
Theorem detectCSVProvider_white_space (csvContent : string) :
  (trim csvContent = "" -> detectCSVProvider csvContent = unknown)
  /\ detectCSVProvider (trim csvContent) = detectCSVProvider csvContent.
Proof.
  assert (trim csvContent = "" -> detectCSVProvider csvContent = unknown) as Hblank.
  { intros H. unfold detectCSVProvider. rewrite H. cbn [String.length Nat.eqb].
    rewrite orb_true_r. reflexivity. }
  split; [exact Hblank|].
  destruct (trim csvContent) as [|c r] eqn:Htrim.
  - rewrite (Hblank eq_refl). reflexivity.
  - rewrite <- Htrim. unfold detectCSVProvider. rewrite trim_idempotent.
    assert (isEmpty csvContent = false) as ->.
    { apply isEmpty_false. intros ->. discriminate Htrim. }
    assert (isEmpty (trim csvContent) = false) as ->.
    { rewrite Htrim. reflexivity. }
    reflexivity.
Qed.

Lemma detectCSVProvider_white_space_witness :
  detectCSVProvider (String " " newline) = unknown.
Proof.
  apply (proj1 (detectCSVProvider_white_space (String " " newline))).
  vm_compute. reflexivity.
Defined.

(** X13.  The verdict on a text that is not blank depends on the first two
    lines of the trimmed text only: the header is always its first line
    (which cannot be blank), and nothing after the second line is read. *)
Theorem detectCSVProvider_first_two_lines (a b : string) :
  trim a <> "" ->
  take 2 (split "010" (trim a)) = take 2 (split "010" (trim b)) ->
  detectCSVProvider a = detectCSVProvider b.
Proof.
  intros Ha Htake.
  assert (exists c r, trim a = String c r) as (c & r & Htrim).
  { destruct (trim a) as [|c r]; [contradiction|eauto]. }
  destruct (first_line_nonBlank a c r Htrim) as (piece & pieces & Hsplit & Hfind).
  rewrite Hsplit in Htake.
  assert (exists c' r', trim b = String c' r') as (c' & r' & Htrim').
  { destruct (trim b) as [|c' r']; [discriminate Htake|eauto]. }
  assert (trim b <> "") as Hb by (rewrite Htrim'; discriminate).
  destruct (first_line_nonBlank b c' r' Htrim') as (piece' & pieces' & Hsplit' & Hfind').
  rewrite Hsplit' in Htake.
  injection Htake as Hc Hpiece Hrest. subst c' piece'.
  rewrite (detect_unfold a _ Ha Hfind), (detect_unfold b _ Hb Hfind').
  rewrite Hsplit, Hsplit'. cbv zeta.
  destruct (aibHeader (toLowerCase (String c piece))); [reflexivity|].
  destruct (revolutHeader (toLowerCase (String c piece))); [reflexivity|].
  destruct pieces as [|second rest], pieces' as [|second' rest'];
    try discriminate Hrest; [reflexivity|].
  injection Hrest as ->. reflexivity.
Qed.

Lemma detectCSVProvider_first_two_lines_witness :
  detectCSVProvider fallbackExampleFile
  = detectCSVProvider (String.append fallbackExampleFile
                                     (String.append newline "anything, after")).
Proof.
  apply (detectCSVProvider_first_two_lines fallbackExampleFile).
  - vm_compute. discriminate.
  - vm_compute. reflexivity.
Defined.

End detector_more.

(** ** The precheck of the preview screen *)

Section precheck.
Import preview.

Lemma precheck_fold (existing : list Doc) (transactions : list Transaction)
      (st : Precheck) :
  let r := fold_left (precheckStep existing) transactions st in
  preUniqueCount r
  = (preUniqueCount st
     + List.length (filter (fun t => makeKeyFromTransaction t ∉ existingKeys existing)
                           transactions))%nat
  /\ (preSkippedCount r + preUniqueCount r
      = preSkippedCount st + preUniqueCount st + List.length transactions)%nat
  /\ forall key, key ∈ duplicateKeys r
                 <-> key ∈ duplicateKeys st
                     \/ (key ∈ existingKeys existing
                         /\ exists t, t ∈ transactions /\ makeKeyFromTransaction t = key).
Proof.
  revert st. induction transactions as [|t transactions IH]; intros st.
  - cbn. split; [lia|]. split; [lia|]. intros key. split; [auto|].
    intros [H|[_ [t [H _]]]]; [exact H|]. apply elem_of_nil in H. contradiction.
  - cbn [fold_left]. cbv zeta. destruct (IH (precheckStep existing st t)) as (Hu & Hs & Hk).
    rewrite filter_cons. unfold precheckStep in *.
    destruct (decide (makeKeyFromTransaction t ∈ existingKeys existing)) as [Hin|Hnotin].
    + destruct (decide (makeKeyFromTransaction t ∉ existingKeys existing)) as [H|_];
        [contradiction|].
      cbn [preUniqueCount preSkippedCount duplicateKeys List.length] in *.
      split; [exact Hu|]. split; [lia|]. intros key. rewrite Hk, elem_of_union,
        elem_of_singleton. split.
      * intros [[->|H]|[H1 [u [H2 H3]]]]; [right|left|right].
        -- split; [exact Hin|]. exists t. split; [left|reflexivity].
        -- exact H.
        -- split; [exact H1|]. exists u. split; [right; exact H2|exact H3].
      * intros [H|[H1 [u [H2 H3]]]]; [left; right; exact H|].
        apply elem_of_cons in H2 as [->|H2]; [left; left; symmetry; exact H3|].
        right. split; [exact H1|]. exists u. split; [exact H2|exact H3].
    + destruct (decide (makeKeyFromTransaction t ∉ existingKeys existing)) as [_|H];
        [|contradiction].
      cbn [preUniqueCount preSkippedCount duplicateKeys List.length] in *.
      split; [lia|]. split; [lia|]. intros key. rewrite Hk. split.
      * intros [H|[H1 [u [H2 H3]]]]; [left; exact H|].
        right. split; [exact H1|]. exists u. split; [right; exact H2|exact H3].
      * intros [H|[H1 [u [H2 H3]]]]; [left; exact H|].
        apply elem_of_cons in H2 as [->|H2]; [subst key; contradiction|].
        right. split; [exact H1|]. exists u. split; [exact H2|exact H3].
Qed.

(** X14.  What the precheck announces is what the import does, the stored
    documents being the same: the number announced as new is the number
    of transactions that deduplication keeps, the two announced numbers
    add up to the size of the file, and a row of the file is flagged as
    a duplicate exactly when deduplication drops it. *)
Theorem precheck_agrees_with_import (existing : list Doc) (transactions : list Transaction) :
  preUniqueCount (runPrecheck existing transactions)
  = List.length (dedupe existing transactions)
  /\ (preSkippedCount (runPrecheck existing transactions)
      + List.length (dedupe existing transactions) = List.length transactions)%nat
  /\ forall t, t ∈ transactions ->
               (makeKeyFromTransaction t ∈ duplicateKeys (runPrecheck existing transactions)
                <-> t ∉ dedupe existing transactions).
Proof.
  unfold runPrecheck.
  destruct (precheck_fold existing transactions
              {| preSkippedCount := 0; preUniqueCount := 0; duplicateKeys := ∅ |})
    as (Hu & Hs & Hk).
  cbv zeta in Hu, Hs, Hk. cbn [preUniqueCount preSkippedCount duplicateKeys] in Hu, Hs, Hk.
  rewrite dedupe_filter. split; [exact Hu|]. split; [lia|].
  intros t Ht. rewrite Hk, list_elem_of_filter. split.
  - intros [H|[H _]]; [apply elem_of_empty in H; contradiction|]. intros [Hn _].
    apply Hn, H.
  - intros H. right.
    destruct (decide (makeKeyFromTransaction t ∈ existingKeys existing)) as [Hin|Hnotin].
    + split; [exact Hin|]. exists t. split; [exact Ht|reflexivity].
    + exfalso. apply H. split; [exact Hnotin|exact Ht].
Qed.

Lemma precheck_agrees_with_import_witness :
  makeKeyFromTransaction (candidate "Salary" 250000 expense march1)
    ∈ duplicateKeys (runPrecheck [stored (candidate "salary" (-250000) expense (march1 + 1))]
                                 [candidate "Salary" 250000 expense march1])
  <-> candidate "Salary" 250000 expense march1
        ∉ dedupe [stored (candidate "salary" (-250000) expense (march1 + 1))]
                 [candidate "Salary" 250000 expense march1].
Proof.
  apply (proj2 (proj2 (precheck_agrees_with_import
                         [stored (candidate "salary" (-250000) expense (march1 + 1))]
                         [candidate "Salary" 250000 expense march1]))).
  left.
Defined.

End precheck.

(** ** Canonical transactions *)

Section canonical.
Import csvParser.

Lemma isNegative_ofZ (n : Z) : 0 <= n -> isNegative (ofZ n) = false.
Proof.
  intros Hn. unfold ofZ, isNegative.
  destruct (Qcompare (Q2Qc (inject_Z n)) 0) eqn:E; try reflexivity.
  exfalso. apply Qlt_alt in E. unfold Q2Qc in E. cbn [this] in E.
  rewrite Qred_correct in E. unfold Qlt in E. simpl in E. lia.
Qed.

Lemma cents_nonnegative (x : number) :
  isNaN x = false ->
  centsOk (round (times100 (abs x)))
  /\ isNaN (round (times100 (abs x))) = false
  /\ isNegative (round (times100 (abs x))) = false.
Proof.
  destruct x as [|negative|q]; [discriminate| |]; intros _.
  - split; [left; reflexivity|]. split; reflexivity.
  - cbn [abs times100 round].
    assert (0 <= Qfloor (Qplus (Qcmult (Q2Qc (Qabs q)) (Q2Qc (inject_Z 100))) (1 # 2)))
      as Hfloor.
    { change 0 with (Qfloor 0). apply Qfloor_resp_le.
      unfold Qcmult, Q2Qc. cbn [this]. rewrite !Qred_correct.
      apply (Qle_trans _ (Qabs q * inject_Z 100 + 0)).
      - rewrite Qplus_0_r. apply Qmult_le_0_compat; [apply Qabs_nonneg|discriminate].
      - apply Qplus_le_r. discriminate. }
    split; [right; eexists; split; [exact Hfloor|reflexivity]|].
    split; [reflexivity|]. apply isNegative_ofZ, Hfloor.
Qed.

Lemma orElse_nonempty (a b : string) : b <> "" -> orElse a b <> "".
Proof.
  intros Hb. unfold orElse. destruct (isEmpty a) eqn:Ha; [exact Hb|].
  apply isEmpty_false, Ha.
Qed.

Lemma orElse_self (a b : string) : a <> "" -> orElse a b = a.
Proof. intros Ha. unfold orElse. apply isEmpty_false in Ha. rewrite Ha. reflexivity. Qed.

Lemma generic_nonempty (isExpense : bool) :
  (if isExpense then "Expense" else "Income") <> "".
Proof. destruct isExpense; discriminate. Qed.

(** X15.  Whatever the AIB record and the collaborators, the canonical
    transaction has a title, a subtitle, a currency and a display name
    that are not empty, no transfer flags, the kind expense exactly when
    the record's amount is below zero, and, when that amount is a
    number, an amount that is a whole number of cents, never negative
    (or infinite). *)
Theorem convertAib_canonical
        (categorizeTransaction : string -> string -> bool -> string)
        (resolveDate : string -> Z) (aib : AibTransaction) :
  let p := convertAibToAppTransaction categorizeTransaction resolveDate aib in
  title p <> "" /\ subtitle p <> "" /\ currency p <> ""
  /\ (exists d, displayName p = Some d /\ d <> "")
  /\ excludeFromAnalytics p = None /\ isAnalyticsProtected p = None
  /\ (kind p = expense <-> isNegative (aib_amount aib) = true)
  /\ (isNaN (aib_amount aib) = false ->
      centsOk (amount p) /\ isNegative (amount p) = false).
Proof.
  cbv zeta. unfold convertAibToAppTransaction.
  cbn [title subtitle currency displayName excludeFromAnalytics isAnalyticsProtected
       kind amount].
  assert (orElse (aib_description aib)
                 (if isNegative (aib_amount aib) then "Expense" else "Income") <> "")
    as Htitle by apply orElse_nonempty, generic_nonempty.
  split; [exact Htitle|].
  split; [apply orElse_nonempty; discriminate|].
  split; [apply orElse_nonempty; discriminate|].
  split; [eexists; split; [reflexivity|apply orElse_nonempty, Htitle]|].
  split; [reflexivity|]. split; [reflexivity|].
  split.
  - destruct (isNegative (aib_amount aib)); split; congruence.
  - intros Hnan. destruct (cents_nonnegative _ Hnan) as (H1 & _ & H2). split; assumption.
Qed.

Lemma convertAib_canonical_witness :
  centsOk (amount (convertAibToAppTransaction (fun _ _ _ => "") (fun _ => 0)
                                              stackedPrefixRecord)).
Proof.
  apply (proj2 (proj2 (proj2 (proj2 (proj2 (proj2 (proj2
           (convertAib_canonical (fun _ _ _ => "") (fun _ => 0) stackedPrefixRecord)))))))).
  vm_compute. reflexivity.
Defined.

Section revolut.
Variable categorizeTransaction : string -> string -> bool -> string.
Variable parseDate : string -> option Z.
Variable now : Z.

Lemma convertRevolut_throws (revolut : RevolutTransaction) :
  convertRevolutToAppTransaction categorizeTransaction parseDate now revolut
  = Throw "Invalid time value"
  <-> revolutDate parseDate now revolut = None.
Proof.
  unfold convertRevolutToAppTransaction.
  destruct (revolutDate parseDate now revolut); split; congruence.
Qed.

Lemma normalized_date (s : string) :
  (if isEmpty (orElse s "") then "" else replaceFirstSpace (orElse s ""))
  = replaceFirstSpace s.
Proof. destruct s; reflexivity. Qed.

Lemma revolutDate_cases (revolut : RevolutTransaction) :
  revolutDate parseDate now revolut =
    match (if isEmpty (rev_startedDate revolut) then None
           else parseDate (replaceFirstSpace (rev_startedDate revolut))) with
    | Some instant => Some instant
    | None => if isEmpty (rev_completedDate revolut) then Some now
              else parseDate (replaceFirstSpace (rev_completedDate revolut))
    end.
Proof.
  unfold revolutDate. cbv zeta. rewrite !normalized_date.
  destruct (rev_startedDate revolut) as [|c s], (rev_completedDate revolut) as [|d u];
    try reflexivity.
  - cbn [replaceFirstSpace]. destruct (Ascii.eqb d " "); reflexivity.
  - cbn [replaceFirstSpace]. destruct (Ascii.eqb c " "); reflexivity.
  - cbn [replaceFirstSpace]. destruct (Ascii.eqb c " "), (Ascii.eqb d " "); reflexivity.
Qed.

(** X16.  The Revolut canonicaliser fails, with the range error of
    [toISOString], exactly when the started date is empty or unreadable
    and the completed date is not empty and unreadable; with a readable
    started date it uses it, and with no readable started date and an
    empty completed date it uses the clock. *)
Theorem convertRevolut_invalid_dates (revolut : RevolutTransaction) :
  let unreadable text := text = "" \/ parseDate (replaceFirstSpace text) = None in
  (convertRevolutToAppTransaction categorizeTransaction parseDate now revolut
   = Throw "Invalid time value"
   <-> unreadable (rev_startedDate revolut)
       /\ rev_completedDate revolut <> ""
       /\ parseDate (replaceFirstSpace (rev_completedDate revolut)) = None)
  /\ (forall instant,
        rev_startedDate revolut <> "" ->
        parseDate (replaceFirstSpace (rev_startedDate revolut)) = Some instant ->
        exists p,
          convertRevolutToAppTransaction categorizeTransaction parseDate now revolut
          = Return p
          /\ date p = instant)
  /\ (unreadable (rev_startedDate revolut) -> rev_completedDate revolut = "" ->
      exists p,
        convertRevolutToAppTransaction categorizeTransaction parseDate now revolut
        = Return p
        /\ date p = now).
Proof.
  cbv zeta. split; [|split].
  - rewrite convertRevolut_throws, revolutDate_cases.
    destruct (rev_startedDate revolut) as [|c s];
      destruct (rev_completedDate revolut) as [|d u]; cbn [isEmpty].
    + split; [discriminate|]. intros (_ & H & _). contradiction.
    + split; [|intros (_ & _ & H); exact H].
      intros H. split; [left; reflexivity|]. split; [discriminate|exact H].
    + destruct (parseDate (replaceFirstSpace (String c s)));
        (split; [discriminate|]); intros (_ & H & _); contradiction.
    + destruct (parseDate (replaceFirstSpace (String c s))) as [instant|] eqn:Hp.
      * split; [discriminate|]. intros ([H|H] & _); discriminate.
      * split; [|intros (_ & _ & H); exact H].
        intros H. split; [right; reflexivity|]. split; [discriminate|exact H].
  - intros instant Hs Hp. unfold convertRevolutToAppTransaction.
    rewrite revolutDate_cases. apply isEmpty_false in Hs. rewrite Hs, Hp.
    eexists. split; reflexivity.
  - intros Hs Hc. unfold convertRevolutToAppTransaction.
    rewrite revolutDate_cases, Hc. cbn [isEmpty].
    destruct Hs as [->|Hs].
    + cbn [isEmpty]. eexists. split; reflexivity.
    + rewrite Hs. destruct (isEmpty (rev_startedDate revolut));
        eexists; split; reflexivity.
Qed.

(** X17.  For a record as the Revolut parser returns it and a conversion that
    succeeds: the title is the description, or [Expense] or [Income]
    when the description is empty or is the word transfer in any case;
    the display name is the title; the subtitle is the description, or
    [Expense] or [Income] when it is empty; the currency is the
    record's (the default [EUR] is never used); the kind is expense
    exactly when the amount is below zero; and the amount is a whole
    number of cents, never negative (or infinite). *)
Theorem convertRevolut_of_parsed (revolut : RevolutTransaction) (p : ParsedTransaction) :
  revolutRecordOk revolut ->
  convertRevolutToAppTransaction categorizeTransaction parseDate now revolut = Return p ->
  let generic := if isNegative (rev_amount revolut) then "Expense" else "Income" in
  title p = (if isEmpty (rev_description revolut)
                || String.eqb (toLowerCase (rev_description revolut)) "transfer"
             then generic else rev_description revolut)
  /\ displayName p = Some (title p)
  /\ subtitle p = orElse (rev_description revolut) generic
  /\ currency p = rev_currency revolut
  /\ (kind p = expense <-> isNegative (rev_amount revolut) = true)
  /\ centsOk (amount p) /\ isNegative (amount p) = false.
Proof.
  intros (Hnan & Hcur & Hpayer & Hpayee & _) Hconv. cbv zeta.
  unfold convertRevolutToAppTransaction in Hconv.
  destruct (revolutDate parseDate now revolut) as [instant|]; [|discriminate].
  injection Hconv as <-.
  cbn [title subtitle currency displayName kind amount].
  rewrite Hpayer, Hpayee.
  assert ((if isNegative (rev_amount revolut) then "" else "") = "") as Hcp
    by (destruct (isNegative (rev_amount revolut)); reflexivity).
  rewrite Hcp.
  destruct (cents_nonnegative _ Hnan) as (Hcents & _ & Hpos).
  assert (kind_iff : (if isNegative (rev_amount revolut) then expense else income) = expense
                     <-> isNegative (rev_amount revolut) = true)
    by (destruct (isNegative (rev_amount revolut)); split; congruence).
  rewrite (orElse_self (rev_currency revolut) "EUR" Hcur).
  destruct (isEmpty (rev_description revolut)
            || String.eqb (toLowerCase (rev_description revolut)) "transfer") eqn:Hswap.
  - repeat split; try assumption; try apply kind_iff; try reflexivity.
    unfold orElse at 1. rewrite (proj2 (isEmpty_false _)); [reflexivity|].
    apply orElse_nonempty, generic_nonempty.
  - apply orb_false_iff in Hswap as [Hdesc _].
    repeat split; try assumption; try apply kind_iff; unfold orElse; rewrite ?Hdesc;
      cbn [isEmpty]; rewrite ?Hdesc; reflexivity.
Qed.

End revolut.

Lemma convertRevolut_invalid_dates_witness :
  exists p, convertRevolutToAppTransaction (fun _ _ _ => "") (fun _ => None) 7
              {| rev_type := ""; rev_product := ""; rev_startedDate := "soon";
                 rev_completedDate := ""; rev_description := "Transfer";
                 rev_payer := ""; rev_payee := ""; rev_amount := ofZ (-5);
                 rev_fee := zero; rev_currency := "GBP"; rev_state := "";
                 rev_balance := "" |} = Return p
            /\ date p = 7.
Proof.
  refine (proj2 (proj2 (convertRevolut_invalid_dates (fun _ _ _ => "") (fun _ => None) 7 _))
                _ _).
  - right. reflexivity.
  - reflexivity.
Defined.

Lemma convertRevolut_of_parsed_witness :
  exists p, title p = "Expense" /\ subtitle p = "Transfer" /\ currency p = "GBP".
Proof.
  destruct (convertRevolutToAppTransaction (fun _ _ _ => "") (fun _ => None) 7
              {| rev_type := ""; rev_product := ""; rev_startedDate := "soon";
                 rev_completedDate := ""; rev_description := "Transfer";
                 rev_payer := ""; rev_payee := ""; rev_amount := ofZ (-5);
                 rev_fee := zero; rev_currency := "GBP"; rev_state := "";
                 rev_balance := "" |}) as [message|p] eqn:Hconv;
    [vm_compute in Hconv; discriminate|].
  exists p.
  assert (revolutRecordOk
            {| rev_type := ""; rev_product := ""; rev_startedDate := "soon";
               rev_completedDate := ""; rev_description := "Transfer";
               rev_payer := ""; rev_payee := ""; rev_amount := ofZ (-5);
               rev_fee := zero; rev_currency := "GBP"; rev_state := "";
               rev_balance := "" |}) as Hok.
  { unfold revolutRecordOk, trimmed. cbn. repeat split; discriminate. }
  destruct (convertRevolut_of_parsed (fun _ _ _ => "") (fun _ => None) 7 _ p Hok Hconv)
    as (Ht & _ & Hs & Hc & _).
  split; [exact Ht|]. split; [exact Hs|exact Hc].
Defined.

End canonical.

(** ** Column resolution *)

Section column_resolution.
Import csvParser.

Lemma columnMap_snoc (headerFields : list string) (header : string) :
  Revolut.columnMap (headerFields ++ [header])
  = <[normalHeader header := List.length headerFields]> (Revolut.columnMap headerFields).
Proof.
  unfold Revolut.columnMap. rewrite imap_app, fold_left_app. cbn [imap fold_left].
  rewrite Nat.add_0_r. reflexivity.
Qed.

Lemma columnMap_Some (headerFields : list string) (name : string) (i : nat) :
  Revolut.columnMap headerFields !! name = Some i ->
  lastWhere (fun h => String.eqb (normalHeader h) name) headerFields i.
Proof.
  revert i. induction headerFields as [|header headerFields IH] using rev_ind; intros i.
  - unfold Revolut.columnMap. cbn. rewrite lookup_empty. discriminate.
  - rewrite columnMap_snoc. destruct (decide (normalHeader header = name)) as [Heq|Hne].
    + rewrite Heq, lookup_insert_eq. intros H. injection H as <-.
      exists header. split; [apply list_lookup_middle; reflexivity|].
      split; [apply String.eqb_eq, Heq|].
      intros j y Hj Hy. apply lookup_lt_Some in Hy. rewrite length_app in Hy.
      simpl in Hy. lia.
    + rewrite lookup_insert_ne by exact Hne. intros H.
      destruct (IH i H) as (x & Hx & Hpx & Hlast).
      exists x. split; [apply lookup_app_l_Some, Hx|]. split; [exact Hpx|].
      intros j y Hj Hy. apply lookup_app_Some in Hy as [Hy|[Hlen Hy]].
      * apply (Hlast j y Hj Hy).
      * apply list_lookup_singleton_Some in Hy as [_ <-].
        apply String.eqb_neq, Hne.
Qed.

(** X18.  In a Revolut file the column of a name is the last header
    cell that, trimmed and in lower case, is that name, and the names of
    a list are tried in order: when the lookup gives a position, one
    name of the list is carried by a header, every name listed before it
    is carried by none, and the position is the last header that carries
    it. *)
Theorem revolut_getColumnIndex_last_wins (headerFields names : list string) (i : nat) :
  Revolut.getColumnIndex (Revolut.columnMap headerFields) names = Z.of_nat i ->
  exists before name after,
    names = before ++ name :: after
    /\ (forall earlier, earlier ∈ before ->
                        toLowerCase earlier ∉ List.map normalHeader headerFields)
    /\ lastWhere (fun h => String.eqb (normalHeader h) (toLowerCase name)) headerFields i.
Proof.
  induction names as [|name names IH]; cbn [Revolut.getColumnIndex]; [lia|].
  destruct (Revolut.columnMap headerFields !! toLowerCase name) as [idx|] eqn:Hlookup.
  - intros H. apply Nat2Z.inj in H. subst idx.
    exists [], name, names. split; [reflexivity|].
    split; [intros earlier He; apply elem_of_nil in He; contradiction|].
    apply columnMap_Some, Hlookup.
  - intros H. destruct (IH H) as (before & found & after & -> & Hbefore & Hlast).
    exists (name :: before), found, after. split; [reflexivity|]. split; [|exact Hlast].
    intros earlier He. apply elem_of_cons in He as [->|He]; [|apply Hbefore, He].
    apply columnMap_None, Hlookup.
Qed.

Lemma revolut_getColumnIndex_last_wins_witness :
  exists before name after,
    ["started date"; "started"; "date"] = before ++ name :: after
    /\ (forall earlier, earlier ∈ before ->
                        toLowerCase earlier
                          ∉ List.map normalHeader ["Date"; "Amount"; " DATE "])
    /\ lastWhere (fun h => String.eqb (normalHeader h) (toLowerCase name))
                 ["Date"; "Amount"; " DATE "] 2.
Proof.
  apply (revolut_getColumnIndex_last_wins ["Date"; "Amount"; " DATE "]
                                          ["started date"; "started"; "date"] 2).
  vm_compute. reflexivity.
Defined.

Lemma findIndexFrom_found {A : Type} (p : A -> bool) (l : list A) (k i : nat) :
  Aib.findIndexFrom p l k = Z.of_nat i ->
  (k <= i)%nat /\ firstWhere p l (i - k).
Proof.
  revert k. induction l as [|x l IH]; intros k; cbn [Aib.findIndexFrom]; [lia|].
  destruct (p x) eqn:Hx.
  - intros H. apply Nat2Z.inj in H. subst i. split; [lia|].
    rewrite Nat.sub_diag. exists x. split; [reflexivity|]. split; [exact Hx|].
    intros j y Hj. lia.
  - intros H. destruct (IH (S k) H) as (Hle & y & Hy & Hpy & Hfirst).
    split; [lia|]. exists y.
    replace (i - k)%nat with (S (i - S k)) by lia.
    split; [exact Hy|]. split; [exact Hpy|].
    intros [|j] z Hj Hz.
    + cbn in Hz. injection Hz as <-. exact Hx.
    + apply (Hfirst j z); [lia|exact Hz].
Qed.

(** X19.  In an AIB file the aliases of a column are tried in order, and for
    one alias a header equal to it is preferred to a header that merely
    contains it, the first such header being taken: when the lookup
    gives a position, no header contains any alias listed before the
    one that decided, and the position is the first header equal to
    that alias or, when no header is equal to it, the first header that
    contains it. *)
Theorem aib_getColumnIndex_first_wins (headers aliases : list string) (i : nat) :
  Aib.getColumnIndex headers aliases = Z.of_nat i ->
  exists before alias after,
    aliases = before ++ alias :: after
    /\ (forall earlier h, earlier ∈ before -> h ∈ headers ->
                          includes h (toLowerCase earlier) = false)
    /\ (firstWhere (fun h => String.eqb h (toLowerCase alias)) headers i
        \/ ((forall h, h ∈ headers -> String.eqb h (toLowerCase alias) = false)
            /\ firstWhere (fun h => includes h (toLowerCase alias)) headers i)).
Proof.
  induction aliases as [|alias aliases IH]; cbn [Aib.getColumnIndex]; [lia|].
  cbv zeta. unfold Aib.findIndex.
  destruct (Z.eqb_spec (Aib.findIndexFrom (fun h => String.eqb h (toLowerCase alias))
                                          headers 0) (-1)) as [Hexact|Hexact];
    cbn [negb].
  - destruct (Z.eqb_spec (Aib.findIndexFrom (fun h => includes h (toLowerCase alias))
                                            headers 0) (-1)) as [Hcontains|Hcontains];
      cbn [negb].
    + intros H. destruct (IH H) as (before & found & after & -> & Hbefore & Hfound).
      exists (alias :: before), found, after. split; [reflexivity|]. split; [|exact Hfound].
      intros earlier h He Hh. apply elem_of_cons in He as [->|He]; [|apply (Hbefore _ _ He Hh)].
      apply (proj1 (findIndexFrom_missing _ _ _) Hcontains h Hh).
    + intros H. apply findIndexFrom_found in H as [_ H]. rewrite Nat.sub_0_r in H.
      exists [], alias, aliases. split; [reflexivity|].
      split; [intros earlier h He; apply elem_of_nil in He; contradiction|].
      right. split; [|exact H]. exact (proj1 (findIndexFrom_missing _ _ _) Hexact).
  - intros H. apply findIndexFrom_found in H as [_ H]. rewrite Nat.sub_0_r in H.
    exists [], alias, aliases. split; [reflexivity|].
    split; [intros earlier h He; apply elem_of_nil in He; contradiction|].
    left. exact H.
Qed.

Lemma aib_getColumnIndex_first_wins_witness :
  exists before alias after,
    ["amount"; "transaction amount"] = before ++ alias :: after
    /\ (forall earlier h, earlier ∈ before -> h ∈ ["date"; "debit amount"; "credit amount"] ->
                          includes h (toLowerCase earlier) = false)
    /\ (firstWhere (fun h => String.eqb h (toLowerCase alias))
                   ["date"; "debit amount"; "credit amount"] 1
        \/ ((forall h, h ∈ ["date"; "debit amount"; "credit amount"] ->
                       String.eqb h (toLowerCase alias) = false)
            /\ firstWhere (fun h => includes h (toLowerCase alias))
                          ["date"; "debit amount"; "credit amount"] 1)).
Proof.
  apply (aib_getColumnIndex_first_wins ["date"; "debit amount"; "credit amount"]
                                       ["amount"; "transaction amount"] 1).
  vm_compute. reflexivity.
Defined.

End column_resolution.

(** ** The prefix loop of the paste screen *)

Section paste_loop.
Import csvParser.




End paste_loop.
